(** * QuantKing trading core: domain model and risk manager

    A shallow embedding of the C++ trading core
    ([common/types.hpp], [risk_manager.cpp] and the control loop of
    [main.cpp]) together with the properties of the risk-gated order
    pipeline.

    - A C++ [double] is an IEEE 754 binary64 number: [spec_float] with
      precision 53 and maximal exponent 1024, whose operations round to
      nearest even.  Division by zero does not raise anything: it yields an
      infinity or a NaN, and every ordered comparison with a NaN is false.
    - A [std::map<std::string, V>] is an association list kept in key order;
      iteration visits it front to back.
    - [std::mutex] is not recursive: a thread that locks a mutex it already
      owns never gets past the lock.  The model follows one calling thread;
      the calls of the risk manager run in the small monad [M], whose
      outcomes are a normal return, a C++ exception in flight, or a call that
      never returns. *)

From Stdlib Require Import ZArith List String Ascii Bool Lia Sorting.Sorted.
From Stdlib Require Import Structures.OrderedTypeEx.
From Stdlib Require Import Floats.SpecFloat.
From Stdlib Require Import Numbers.DecimalString Numbers.DecimalZ.
Import ListNotations.

Local Open Scope Z_scope.
Local Open Scope string_scope.

(** ** IEEE 754 binary64 *)

Module Double.

Definition prec : Z := 53.
Definition emax : Z := 1024.

Definition double : Type := spec_float.

Definition add : double -> double -> double := SFadd prec emax.
Definition sub : double -> double -> double := SFsub prec emax.
Definition mul : double -> double -> double := SFmul prec emax.
Definition div : double -> double -> double := SFdiv prec emax.
Definition opp : double -> double := SFopp.

(** [a < b], [a > b], [a == b] and [a != b] of C++.  With a NaN operand the
    first three are false and the last is true. *)
Definition ltb (a b : double) : bool := SFltb a b.
Definition gtb (a b : double) : bool := SFltb b a.
Definition eqb (a b : double) : bool := SFeqb a b.
Definition neb (a b : double) : bool := negb (SFeqb a b).

(** The double nearest to an integer (a literal such as [1000000.0], or
    the conversion of the [int] literal [0]). *)
Definition of_Z (z : Z) : double := binary_normalize prec emax z 0 false.

Definition zero : double := S754_zero false.
Definition nan : double := S754_nan.

(** A decimal literal [n/d] is the double nearest to the quotient, which is
    what the correctly rounded division of two exact integers gives. *)
Definition of_ratio (n d : Z) : double := div (of_Z n) (of_Z d).

Definition is_zero (x : double) : bool :=
  match x with S754_zero _ => true | _ => false end.

Definition is_nan (x : double) : bool :=
  match x with S754_nan => true | _ => false end.

(** A zero of either sign or a NaN: what a product with an unset price is. *)
Definition zero_or_nan (x : double) : bool := is_zero x || is_nan x.

End Double.

Import Double.

Declare Scope double_scope.
Delimit Scope double_scope with double.
Infix "+" := Double.add : double_scope.
Infix "-" := Double.sub : double_scope.
Infix "*" := Double.mul : double_scope.
Infix "/" := Double.div : double_scope.
Notation "- x" := (Double.opp x) : double_scope.
Infix "<?" := Double.ltb : double_scope.
Infix ">?" := Double.gtb : double_scope.

(** ** std::map with string keys *)

Module StdMap.

Section WithValue.
Context {V : Type}.

Definition t : Type := list (string * V).

Definition empty : t := [].

(** [m.find(k)]: [None] stands for [m.end()]. *)
Fixpoint find (m : t) (k : string) : option V :=
  match m with
  | [] => None
  | (k', v) :: rest => if String.eqb k k' then Some v else find rest k
  end.

Definition contains (m : t) (k : string) : bool :=
  match find m k with Some _ => true | None => false end.

(** [m.at(k)] throws [std::out_of_range] when the key is absent. *)
Definition at_ (m : t) (k : string) : option V := find m k.

(** [m[k] = v]: assigns in place, or inserts at the key's rank. *)
Fixpoint set (m : t) (k : string) (v : V) : t :=
  match m with
  | [] => [(k, v)]
  | (k', v') :: rest =>
      match String.compare k k' with
      | Lt => (k, v) :: m
      | Eq => (k, v) :: rest
      | Gt => (k', v') :: set rest k v
      end
  end.

Definition keys (m : t) : list string := List.map fst m.

End WithValue.

Arguments t : clear implicits.

End StdMap.

(** ** common/types.hpp *)

Definition Timestamp : Type := Z.

Inductive OrderSide := BUY | SELL.

Inductive OrderType := MARKET | LIMIT | STOP | STOP_LIMIT.

Inductive OrderStatus := PENDING | FILLED | PARTIALLY_FILLED | CANCELLED | REJECTED.

Module Order.

Record t := mk {
  order_id_ : string;
  symbol_ : string;
  side_ : OrderSide;
  type_ : OrderType;
  quantity_ : double;
  price_ : double;
  filled_quantity_ : double;
  status_ : OrderStatus;
  create_time_ : Timestamp;
  update_time_ : Timestamp
}.

Definition INT_MAX : Z := 2147483647.

(** [std::to_string(int)] *)
Definition to_string (n : Z) : string := NilEmpty.string_of_int (Z.to_int n).

(** [generateOrderId]: the function-local [static int counter] is threaded
    as state.  [++counter] on [INT_MAX] is a signed overflow, which has no
    defined result: [None]. *)
Definition generateOrderId (counter : Z) : option (string * Z) :=
  if (counter <? INT_MAX)%Z
  then let counter' := (counter + 1)%Z in Some ("ORD" ++ to_string counter', counter')
  else None.

(** The constructor.  [now] is the reading of the system clock.  The
    member initialisers give price, filled quantity and status; the body
    only draws the id. *)
Definition construct (counter : Z) (now : Timestamp)
    (symbol : string) (side : OrderSide) (type : OrderType) (quantity : double)
    : option (t * Z) :=
  match generateOrderId counter with
  | Some (id, counter') =>
      Some (mk id symbol side type quantity Double.zero Double.zero PENDING now now,
            counter')
  | None => None
  end.

(** The arguments of one construction. *)
Record request := mkRequest {
  req_now : Timestamp;
  req_symbol : string;
  req_side : OrderSide;
  req_type : OrderType;
  req_quantity : double
}.

(** The orders a process constructs one after the other, from the value
    [counter] of the static counter. *)
Fixpoint construct_all (counter : Z) (requests : list request) : option (list t * Z) :=
  match requests with
  | [] => Some ([], counter)
  | r :: rest =>
      match construct counter (req_now r) (req_symbol r) (req_side r) (req_type r)
                      (req_quantity r) with
      | Some (o, counter') =>
          match construct_all counter' rest with
          | Some (os, counter'') => Some (o :: os, counter'')
          | None => None
          end
      | None => None
      end
  end.

(** What the member initialisers give every new order. *)
Definition freshly_initialised (o : t) : Prop :=
  status_ o = PENDING /\ filled_quantity_ o = Double.zero /\ price_ o = Double.zero.

Definition getOrderId (o : t) : string := order_id_ o.
Definition getSymbol (o : t) : string := symbol_ o.
Definition getSide (o : t) : OrderSide := side_ o.
Definition getType (o : t) : OrderType := type_ o.
Definition getQuantity (o : t) : double := quantity_ o.
Definition getPrice (o : t) : double := price_ o.
Definition getStatus (o : t) : OrderStatus := status_ o.

Definition setPrice (o : t) (price : double) : t :=
  mk (order_id_ o) (symbol_ o) (side_ o) (type_ o) (quantity_ o) price
     (filled_quantity_ o) (status_ o) (create_time_ o) (update_time_ o).

Definition setStatus (o : t) (status : OrderStatus) : t :=
  mk (order_id_ o) (symbol_ o) (side_ o) (type_ o) (quantity_ o) (price_ o)
     (filled_quantity_ o) status (create_time_ o) (update_time_ o).

Definition setFilledQuantity (o : t) (qty : double) : t :=
  mk (order_id_ o) (symbol_ o) (side_ o) (type_ o) (quantity_ o) (price_ o)
     qty (status_ o) (create_time_ o) (update_time_ o).

End Order.

Module Position.

Record t := mk {
  symbol_ : string;
  quantity_ : double;
  average_price_ : double
}.

(** [Position(symbol)] *)
Definition construct (symbol : string) : t := mk symbol Double.zero Double.zero.

Definition updatePosition (p : t) (quantity price : double) : t :=
  let quantity' := (quantity_ p + quantity)%double in
  if Double.neb quantity' (Double.of_Z 0)
  then mk (symbol_ p) quantity'
          ((average_price_ p * (quantity' - quantity) + price * quantity) / quantity')%double
  else mk (symbol_ p) quantity' (average_price_ p).

Definition getQuantity (p : t) : double := quantity_ p.
Definition getAveragePrice (p : t) : double := average_price_ p.
Definition getMarketValue (p : t) (current_price : double) : double :=
  (quantity_ p * current_price)%double.
Definition getUnrealizedPnL (p : t) (current_price : double) : double :=
  (quantity_ p * (current_price - average_price_ p))%double.

End Position.

Module Portfolio.

Record t := mk {
  cash_ : double;
  positions_ : StdMap.t Position.t;
  total_exposure_ : double;
  drawdown_ : double;
  leverage_ : double;
  daily_pnl_ : double;
  concentration_ : double
}.

(** The default member initialisers. *)
Definition initial : t :=
  mk (Double.of_Z 1000000) StdMap.empty
     (Double.of_Z 0) (Double.of_Z 0) (Double.of_Z 1) (Double.of_Z 0) (Double.of_Z 0).

Definition updatePosition (pf : t) (symbol : string) (quantity price : double) : t :=
  let positions :=
    match StdMap.find (positions_ pf) symbol with
    | None => StdMap.set (positions_ pf) symbol (Position.construct symbol)
    | Some _ => positions_ pf
    end in
  let positions' :=
    match StdMap.find positions symbol with
    | Some p => StdMap.set positions symbol (Position.updatePosition p quantity price)
    | None => positions
    end in
  mk (cash_ pf) positions' (total_exposure_ pf) (drawdown_ pf) (leverage_ pf)
     (daily_pnl_ pf) (concentration_ pf).

(** The loop of [getTotalValue] over the positions in key order.  [None]
    stands for the [std::out_of_range] of [current_prices.at]. *)
Fixpoint getTotalValue_loop (current_prices : StdMap.t double)
    (positions : StdMap.t Position.t) (total : double) : option double :=
  match positions with
  | [] => Some total
  | (symbol, position) :: rest =>
      if StdMap.contains current_prices symbol
      then match StdMap.at_ current_prices symbol with
           | Some price =>
               getTotalValue_loop current_prices rest
                 (total + Position.getMarketValue position price)%double
           | None => None
           end
      else getTotalValue_loop current_prices rest total
  end.

Definition getTotalValue (pf : t) (current_prices : StdMap.t double) : option double :=
  getTotalValue_loop current_prices (positions_ pf) (cash_ pf).

Definition getCash (pf : t) : double := cash_ pf.

Definition updateCash (pf : t) (amount : double) : t :=
  mk (cash_ pf + amount)%double (positions_ pf) (total_exposure_ pf) (drawdown_ pf)
     (leverage_ pf) (daily_pnl_ pf) (concentration_ pf).

(** [None] is the null pointer. *)
Definition getPosition (pf : t) (symbol : string) : option Position.t :=
  StdMap.find (positions_ pf) symbol.

Definition getTotalExposure (pf : t) : double := total_exposure_ pf.
Definition getDrawdown (pf : t) : double := drawdown_ pf.
Definition getLeverage (pf : t) : double := leverage_ pf.
Definition getDailyPnL (pf : t) : double := daily_pnl_ pf.
Definition getConcentration (pf : t) : double := concentration_ pf.

(** The specification's reading of the total value: the market values of
    the held positions whose symbol has a price, in key order ... *)
Definition priced_values (current_prices : StdMap.t double)
    (positions : StdMap.t Position.t) : list double :=
  flat_map (fun '(symbol, position) =>
              match StdMap.find current_prices symbol with
              | Some price => [(Position.getQuantity position * price)%double]
              | None => []
              end) positions.

(** ... added one after the other to [start]. *)
Definition sum_from (start : double) (terms : list double) : double :=
  fold_left Double.add terms start.

Definition with_positions (pf : t) (positions : StdMap.t Position.t) : t :=
  mk (cash_ pf) positions (total_exposure_ pf) (drawdown_ pf) (leverage_ pf)
     (daily_pnl_ pf) (concentration_ pf).

(** The two mutators of the class, as data. *)
Inductive op :=
| OpUpdatePosition (symbol : string) (quantity price : double)
| OpUpdateCash (amount : double).

Definition apply (pf : t) (o : op) : t :=
  match o with
  | OpUpdatePosition symbol quantity price => updatePosition pf symbol quantity price
  | OpUpdateCash amount => updateCash pf amount
  end.

Definition run (ops : list op) (pf : t) : t := fold_left apply ops pf.

End Portfolio.

(** ** Calls on the risk manager *)

(** What spdlog receives.  The formatted text of the numbers is not
    modelled: a debug record keeps the values themselves. *)
Inductive LogEntry :=
| Warn (msg : string)
| Error (msg : string)
| DebugMetrics (drawdown_pct leverage daily_pnl : double).

(** Modelled from the spec: [risk_manager.hpp] is not among the sources.  The
    five limits are the members of [limits_] that [checkOrderRisk] reads, in
    the order in which the specification lists them. *)
Record RiskLimits := mkRiskLimits {
  max_position_size : double;
  max_leverage : double;
  max_drawdown : double;
  daily_loss_limit : double;
  position_concentration : double
}.

Module RiskManager.

(** Modelled from the spec: the members that [risk_manager.cpp] uses.
    [mutex_] is declared as a [std::mutex] (every guard of the file is a
    [std::lock_guard<std::mutex>]); it is [true] while the calling thread
    owns it. *)
Record t := mk {
  limits_ : RiskLimits;
  current_prices_ : StdMap.t double;
  current_metrics_ : StdMap.t double;
  mutex_ : bool
}.

(** [RiskManager(limits)] *)
Definition construct (limits : RiskLimits) : t :=
  mk limits StdMap.empty StdMap.empty false.

Definition with_mutex (rm : t) (b : bool) : t :=
  mk (limits_ rm) (current_prices_ rm) (current_metrics_ rm) b.

Definition with_metrics (rm : t) (m : StdMap.t double) : t :=
  mk (limits_ rm) (current_prices_ rm) m (mutex_ rm).

Definition with_prices (rm : t) (p : StdMap.t double) : t :=
  mk (limits_ rm) p (current_metrics_ rm) (mutex_ rm).

(** How a call ends, seen from the calling thread. *)
Inductive outcome (A : Type) :=
| Returned (a : A) (rm : t) (log : list LogEntry)
| Threw (what : string) (rm : t) (log : list LogEntry)
| Deadlock (rm : t) (log : list LogEntry).

Arguments Returned {A}.
Arguments Threw {A}.
Arguments Deadlock {A}.

Definition M (A : Type) : Type := t -> list LogEntry -> outcome A.

Definition ret {A} (a : A) : M A := fun rm log => Returned a rm log.

Definition bind {A B} (c : M A) (k : A -> M B) : M B := fun rm log =>
  match c rm log with
  | Returned a rm' log' => k a rm' log'
  | Threw e rm' log' => Threw e rm' log'
  | Deadlock rm' log' => Deadlock rm' log'
  end.

Definition throw {A} (what : string) : M A := fun rm log => Threw what rm log.

Definition get : M t := fun rm log => Returned rm rm log.
Definition put (rm' : t) : M unit := fun _ log => Returned tt rm' log.
Definition spdlog (e : LogEntry) : M unit := fun rm log => Returned tt rm (log ++ [e]).

(** [try { body } catch (const std::exception& e) { handler }] *)
Definition try_catch {A} (body : M A) (handler : string -> M A) : M A := fun rm log =>
  match body rm log with
  | Threw e rm' log' => handler e rm' log'
  | other => other
  end.

(** [std::lock_guard<std::mutex> lock(mutex_);] for the rest of the scope.
    The mutex is released when the scope is left, also by an exception.
    Locking it while the calling thread owns it never comes back. *)
Definition lock_guard {A} (scope : M A) : M A := fun rm log =>
  if mutex_ rm then Deadlock rm log
  else match scope (with_mutex rm true) log with
       | Returned a rm' log' => Returned a (with_mutex rm' false) log'
       | Threw e rm' log' => Threw e (with_mutex rm' false) log'
       | Deadlock rm' log' => Deadlock rm' log'
       end.

Notation "x <- c ;; k" := (bind c (fun x => k))
  (at level 61, c at next level, right associativity).
Notation "c ;;; k" := (bind c (fun _ => k))
  (at level 61, right associativity).

(** [current_metrics_[name]] read as an rvalue just after it was assigned. *)
Definition metric (m : StdMap.t double) (name : string) : double :=
  match StdMap.find m name with Some v => v | None => Double.of_Z 0 end.

Definition updateRiskMetrics (portfolio : Portfolio.t) : M unit :=
  lock_guard
    (try_catch
       (rm <- get ;;
        let m1 := StdMap.set (current_metrics_ rm) "drawdown" (Portfolio.getDrawdown portfolio) in
        let m2 := StdMap.set m1 "leverage" (Portfolio.getLeverage portfolio) in
        let m3 := StdMap.set m2 "daily_pnl" (Portfolio.getDailyPnL portfolio) in
        let m4 := StdMap.set m3 "concentration" (Portfolio.getConcentration portfolio) in
        put (with_metrics rm m4) ;;;
        spdlog (DebugMetrics (metric m4 "drawdown" * Double.of_Z 100)%double
                             (metric m4 "leverage") (metric m4 "daily_pnl")))
       (fun what => spdlog (Error ("Error updating risk metrics: " ++ what)))).

Definition checkOrderRisk (order : Order.t) (portfolio : Portfolio.t) : M bool :=
  lock_guard
    (try_catch
       (rm <- get ;;
        let limits := limits_ rm in
        (* 1. Check single position size limit *)
        let position_value := (Order.getQuantity order * Order.getPrice order)%double in
        portfolio_value <-
          match Portfolio.getTotalValue portfolio (current_prices_ rm) with
          | Some v => ret v
          | None => throw "map::at"
          end ;;
        if (position_value / portfolio_value >? max_position_size limits)%double then
          spdlog (Warn ("Position size limit exceeded for " ++ Order.getSymbol order)) ;;;
          ret false
        else
        (* 2. Check leverage limit *)
        let total_exposure := (Portfolio.getTotalExposure portfolio + position_value)%double in
        if (total_exposure / portfolio_value >? max_leverage limits)%double then
          spdlog (Warn "Leverage limit exceeded") ;;;
          ret false
        else
        (* 3. Check drawdown limit *)
        if (Portfolio.getDrawdown portfolio >? max_drawdown limits)%double then
          spdlog (Warn "Drawdown limit exceeded") ;;;
          ret false
        else
        (* 4. Check daily loss limit *)
        if (Portfolio.getDailyPnL portfolio <? - daily_loss_limit limits)%double then
          spdlog (Warn "Daily loss limit exceeded") ;;;
          ret false
        else
        (* 5. Check concentration limit *)
        let position := Portfolio.getPosition portfolio (Order.getSymbol order) in
        let new_position_size :=
          ((match position with
            | Some p => Position.getQuantity p
            | None => Double.of_Z 0
            end) + Order.getQuantity order)%double in
        let new_concentration :=
          (new_position_size * Order.getPrice order / portfolio_value)%double in
        if (new_concentration >? position_concentration limits)%double then
          spdlog (Warn ("Position concentration limit exceeded for " ++ Order.getSymbol order)) ;;;
          ret false
        else
        (* Update risk metrics *)
        updateRiskMetrics portfolio ;;;
        ret true)
       (fun what =>
          spdlog (Error ("Error in risk check: " ++ what)) ;;;
          ret false)).

(** The call returned [false] after the one warning [msg]. *)
Definition rejected_citing (msg : string) (log : list LogEntry) (out : outcome bool) : Prop :=
  exists rm', out = Returned false rm' (log ++ [Warn msg]).

Definition getRiskMetrics : M (StdMap.t double) :=
  lock_guard (rm <- get ;; ret (current_metrics_ rm)).

Definition updateCurrentPrices (prices : StdMap.t double) : M unit :=
  lock_guard (rm <- get ;; put (with_prices rm prices)).

End RiskManager.

(** ** main.cpp: how the control loop builds its orders *)

Module TradingEngine.

(** Modelled from the spec: [strategy.hpp] is not among the sources; a
    signal carries a symbol, a side and a strength. *)
Record Signal := mkSignal {
  symbol : string;
  side : OrderSide;
  strength : double
}.

(** [calculateOrderSize].  [prices] is what [getCurrentPrices] obtained from
    the data loader and [position_size_limit] is
    [config_->getPositionSizeLimit()].  [None]: [getTotalValue] threw. *)
Definition calculateOrderSize (portfolio : Portfolio.t) (prices : StdMap.t double)
    (position_size_limit : double) (signal : Signal) : option double :=
  match Portfolio.getTotalValue portfolio prices with
  | Some portfolio_value =>
      Some (portfolio_value * position_size_limit * strength signal)%double
  | None => None
  end.

(** [createOrder]: a market order of the computed size; no price is set. *)
Definition createOrder (counter : Z) (now : Timestamp) (portfolio : Portfolio.t)
    (prices : StdMap.t double) (position_size_limit : double) (signal : Signal)
    : option (Order.t * Z) :=
  match calculateOrderSize portfolio prices position_size_limit signal with
  | Some size => Order.construct counter now (symbol signal) (side signal) MARKET size
  | None => None
  end.

End TradingEngine.

(** ** The example of the specification *)

Module Scenario.

(** max_position_size 0.1, max_leverage 2.0, max_drawdown 0.2,
    daily_loss_limit 50000, position_concentration 0.15 *)
Definition limits : RiskLimits :=
  mkRiskLimits (Double.of_ratio 1 10) (Double.of_Z 2) (Double.of_ratio 2 10)
               (Double.of_Z 50000) (Double.of_ratio 15 100).

Definition manager : RiskManager.t := RiskManager.construct limits.

(** An order as the execution side would see it: [quantity] shares at
    [price], the price set with [setPrice]. *)
Definition order_at (id symbol : string) (quantity price : Z) : Order.t :=
  Order.setPrice
    (Order.mk id symbol BUY MARKET (Double.of_Z quantity) Double.zero Double.zero PENDING 0 0)
    (Double.of_Z price).

(** A long position of 10 shares bought at 100. *)
Definition long_10_at_100 : Position.t :=
  Position.updatePosition (Position.construct "AAPL") (Double.of_Z 10) (Double.of_Z 100).

(** A portfolio that holds AAPL and MSFT, and a price for MSFT only. *)
Definition two_positions : Portfolio.t :=
  Portfolio.updatePosition
    (Portfolio.updatePosition Portfolio.initial "MSFT" (Double.of_Z 20) (Double.of_Z 300))
    "AAPL" (Double.of_Z 100) (Double.of_Z 900).

Definition msft_only : StdMap.t double := [("MSFT", Double.of_Z 310)].

(** A market order as the control loop builds it: the price is not set. *)
Definition market_order (quantity : Z) : Order.t :=
  Order.mk "ORD1" "AAPL" BUY MARKET (Double.of_Z quantity) Double.zero Double.zero PENDING 0 0.

(** Limits whose position-size fraction is negative. *)
Definition negative_size_limits : RiskLimits :=
  mkRiskLimits (Double.of_ratio (-1) 10) (Double.of_Z 2) (Double.of_ratio 2 10)
               (Double.of_Z 50000) (Double.of_ratio 15 100).

(** The portfolio after the first 100 shares were bought at 900 and paid. *)
Definition after_first_fill : Portfolio.t :=
  Portfolio.updateCash
    (Portfolio.updatePosition Portfolio.initial "AAPL" (Double.of_Z 100) (Double.of_Z 900))
    (Double.of_Z (-90000)).

(** ... and after the next 50. *)
Definition after_second_fill : Portfolio.t :=
  Portfolio.updateCash
    (Portfolio.updatePosition after_first_fill "AAPL" (Double.of_Z 50) (Double.of_Z 900))
    (Double.of_Z (-45000)).

Definition prices : StdMap.t double := [("AAPL", Double.of_Z 900)].

Definition priced (rm : RiskManager.t) : RiskManager.t :=
  RiskManager.with_prices rm prices.

(** A portfolio emptied of its cash: its total value is zero. *)
Definition no_value : Portfolio.t :=
  Portfolio.updateCash Portfolio.initial (Double.of_Z (-1000000)).

End Scenario.

(** ** Further vocabulary *)

(** A double that is neither an infinity nor a NaN. *)
Definition is_finite (x : double) : bool :=
  match x with
  | S754_zero _ | S754_finite _ _ _ => true
  | S754_infinity _ | S754_nan => false
  end.

(** The keys of a map, each strictly below the next. *)
Definition key_lt (a b : string) : Prop := String.compare a b = Lt.

Definition ascending (keys : list string) : Prop := Sorted.Sorted key_lt keys.

(** Positions in key order, each under its own symbol. *)
Definition well_keyed (positions : StdMap.t Position.t) : Prop :=
  ascending (StdMap.keys positions) /\
  Forall (fun entry => Position.symbol_ (snd entry) = fst entry) positions.

(** The three setters of [Order], as data. *)
Module OrderOps.

Inductive setter :=
| SetPrice (price : double)
| SetStatus (status : OrderStatus)
| SetFilledQuantity (qty : double).

Definition apply (o : Order.t) (s : setter) : Order.t :=
  match s with
  | SetPrice price => Order.setPrice o price
  | SetStatus status => Order.setStatus o status
  | SetFilledQuantity qty => Order.setFilledQuantity o qty
  end.

Definition run (setters : list setter) (o : Order.t) : Order.t :=
  fold_left apply setters o.

End OrderOps.

(** [MarketData] of common/types.hpp. *)
Record MarketData := mkMarketData {
  md_symbol : string;
  last_price : double;
  md_open : double;
  md_high : double;
  md_low : double;
  md_volume : double;
  md_timestamp : Timestamp;
  indicators : StdMap.t double;
  fundamentals : StdMap.t double
}.

(** ** main.cpp: the signal phase of the loop *)

Module ControlLoop.

Section Collaborators.

(** The data loader is outside the core: a state and a call that yields
    market data, or throws ([None]), and leaves a new state. *)
Variable Loader : Type.
Variable loadMarketData : Loader -> string -> option MarketData * Loader.

(** [config_->getSymbols()] and [config_->getPositionSizeLimit()]. *)
Variable symbols : list string.
Variable position_size_limit : double.

(** The reading of the system clock when the order after the [n]-th is
    constructed. *)
Variable clock : Z -> Timestamp.

(** The members of [TradingEngine] that the phase touches, the log, the
    static counter of the order ids, and the orders that reached
    [submitOrder]. *)
Record t := mk {
  portfolio_ : Portfolio.t;
  risk_manager_ : RiskManager.t;
  data_loader_ : Loader;
  counter_ : Z;
  submitted_ : list Order.t;
  log_ : list LogEntry
}.

(** How a phase, or a part of it, ends. *)
Inductive outcome :=
| Finished (e : t)
| Raised (what : string) (e : t)
| Stuck (e : t)
| Undefined.

(** [getCurrentPrices]: one load per configured symbol, in order. *)
Fixpoint getCurrentPrices_loop (todo : list string) (prices : StdMap.t double)
    (loader : Loader) : option (StdMap.t double) * Loader :=
  match todo with
  | [] => (Some prices, loader)
  | symbol :: rest =>
      match loadMarketData loader symbol with
      | (Some market_data, loader') =>
          getCurrentPrices_loop rest (StdMap.set prices symbol (last_price market_data))
            loader'
      | (None, loader') => (None, loader')
      end
  end.

Definition getCurrentPrices (loader : Loader) : option (StdMap.t double) * Loader :=
  getCurrentPrices_loop symbols StdMap.empty loader.

(** [order_executor_->submitOrder(order)], seen from the core: the order is
    handed over. *)
Definition submitOrder (e : t) (order : Order.t) : t :=
  mk (portfolio_ e) (risk_manager_ e) (data_loader_ e) (counter_ e)
     (submitted_ e ++ [order]) (log_ e).

(** The body of the [for] loop of [processSignals].  [Undefined]: the id
    counter overflowed while the order was constructed. *)
Fixpoint processSignals_loop (signals : list TradingEngine.Signal) (e : t) : outcome :=
  match signals with
  | [] => Finished e
  | signal :: rest =>
      match getCurrentPrices (data_loader_ e) with
      | (None, loader') =>
          Raised "loadMarketData"
            (mk (portfolio_ e) (risk_manager_ e) loader' (counter_ e) (submitted_ e) (log_ e))
      | (Some prices, loader') =>
          match TradingEngine.createOrder (counter_ e) (clock (counter_ e)) (portfolio_ e)
                  prices position_size_limit signal with
          | None => Undefined
          | Some (order, counter') =>
              match RiskManager.checkOrderRisk order (portfolio_ e) (risk_manager_ e)
                      (log_ e) with
              | RiskManager.Returned accepted rm' log' =>
                  let e' := mk (portfolio_ e) rm' loader' counter' (submitted_ e) log' in
                  processSignals_loop rest (if accepted then submitOrder e' order else e')
              | RiskManager.Threw what rm' log' =>
                  Raised what (mk (portfolio_ e) rm' loader' counter' (submitted_ e) log')
              | RiskManager.Deadlock rm' log' =>
                  Stuck (mk (portfolio_ e) rm' loader' counter' (submitted_ e) log')
              end
          end
      end
  end.

(** [processSignals].  [pending] is what [strategy_->getSignals()] returned,
    [None] when it threw.  Whatever is thrown inside is logged, and the rest
    of the batch is dropped. *)
Definition processSignals (pending : option (list TradingEngine.Signal)) (e : t) : outcome :=
  let caught what e' :=
    Finished (mk (portfolio_ e') (risk_manager_ e') (data_loader_ e') (counter_ e')
                 (submitted_ e') (log_ e' ++ [Error ("Error processing signals: " ++ what)])) in
  match pending with
  | None => caught "getSignals" e
  | Some signals =>
      match processSignals_loop signals e with
      | Raised what e' => caught what e'
      | other => other
      end
  end.

End Collaborators.

End ControlLoop.

(** An engine configured for AAPL with a position size fraction of 0.1, a
    loader that quotes 900 for every symbol, and two signals. *)
Module EngineScenario.

Definition loadMarketData (loader : unit) (symbol : string) : option MarketData * unit :=
  (Some (mkMarketData symbol (Double.of_Z 900) (Double.of_Z 900) (Double.of_Z 900)
           (Double.of_Z 900) (Double.of_Z 0) 0 StdMap.empty StdMap.empty), loader).

Definition symbols : list string := ["AAPL"].

Definition position_size_limit : double := Double.of_ratio 1 10.

Definition clock (n : Z) : Timestamp := n.

Definition engine : ControlLoop.t unit :=
  ControlLoop.mk unit Portfolio.initial Scenario.manager tt 0 [] [].

Definition buy : TradingEngine.Signal := TradingEngine.mkSignal "AAPL" BUY (Double.of_Z 1).

Definition sell : TradingEngine.Signal := TradingEngine.mkSignal "AAPL" SELL (Double.of_Z 1).

Definition processSignals :=
  ControlLoop.processSignals unit loadMarketData symbols position_size_limit clock.

End EngineScenario.

(** ** Facts about doubles *)

Section DoubleFacts.

Lemma mul_zero_r (x y : double) :
  Double.is_zero y = true -> Double.zero_or_nan (x * y)%double = true.
Proof.
  destruct y as [sy | sy | | sy my ey]; simpl; try discriminate.
  intros _. destruct x as [sx | sx | | sx mx ex]; reflexivity.
Qed.

Lemma div_zero_or_nan (x y : double) :
  Double.zero_or_nan x = true -> Double.zero_or_nan (x / y)%double = true.
Proof.
  destruct x as [sx | sx | | sx mx ex]; simpl; try discriminate; intros _;
    destruct y as [sy | sy | | sy my ey]; reflexivity.
Qed.

(** Neither a zero nor a NaN is above a limit that is not negative. *)
Lemma gtb_zero_or_nan (x limit : double) :
  Double.zero_or_nan x = true ->
  (limit <? Double.zero)%double = false ->
  (x >? limit)%double = false.
Proof.
  destruct x as [sx | sx | | sx mx ex]; simpl; try discriminate; intros _.
  - destruct limit as [sl | sl | | sl ml el]; simpl; trivial.
  - intros _. destruct limit as [sl | sl | | sl ml el]; reflexivity.
Qed.

End DoubleFacts.

(** ** Facts about maps *)

Section MapFacts.
Context {V : Type}.

Lemma compare_Gt_neq (k k' : string) :
  String.compare k k' = Gt -> String.eqb k k' = false.
Proof.
  intros H. apply String.eqb_neq. intros ->.
  pose proof (String.compare_antisym k' k') as A. rewrite H in A. discriminate A.
Qed.

Lemma find_set_same (m : StdMap.t V) (k : string) (v : V) :
  StdMap.find (StdMap.set m k v) k = Some v.
Proof.
  induction m as [| [k' v'] rest IH]; simpl.
  - now rewrite String.eqb_refl.
  - destruct (String.compare k k') eqn:C; simpl.
    + now rewrite String.eqb_refl.
    + now rewrite String.eqb_refl.
    + now rewrite (compare_Gt_neq _ _ C).
Qed.

Lemma find_set_other (m : StdMap.t V) (k k' : string) (v : V) :
  k <> k' -> StdMap.find (StdMap.set m k v) k' = StdMap.find m k'.
Proof.
  intros N. assert (E : String.eqb k' k = false) by (apply String.eqb_neq; congruence).
  induction m as [| [k0 v0] rest IH]; simpl.
  - now rewrite E.
  - destruct (String.compare k k0) eqn:C; simpl.
    + apply String.compare_eq_iff in C. subst k0. now rewrite E.
    + now rewrite E.
    + now rewrite IH.
Qed.

End MapFacts.

(** ** Facts about the portfolio valuation *)

Section TotalValue.

Lemma getTotalValue_loop_sum current_prices positions total :
  Portfolio.getTotalValue_loop current_prices positions total
  = Some (Portfolio.sum_from total (Portfolio.priced_values current_prices positions)).
Proof.
  revert total.
  induction positions as [| [symbol position] rest IH]; intros total; simpl.
  - reflexivity.
  - unfold StdMap.contains, StdMap.at_.
    destruct (StdMap.find current_prices symbol) as [price |]; simpl; apply IH.
Qed.

(** [current_prices.at] is only reached behind a successful [find]:
    [getTotalValue] throws nothing. *)
Lemma getTotalValue_returns pf current_prices :
  exists v, Portfolio.getTotalValue pf current_prices = Some v.
Proof. eexists. apply getTotalValue_loop_sum. Qed.

End TotalValue.

(** ** The risk check, branch by branch *)

Section CheckOrderRisk.

Import RiskManager.

(** The refresh called from inside [checkOrderRisk] finds the mutex owned. *)
Lemma updateRiskMetrics_locked portfolio rm log :
  mutex_ rm = true -> updateRiskMetrics portfolio rm log = Deadlock rm log.
Proof. intros H. unfold updateRiskMetrics, lock_guard. now rewrite H. Qed.

Lemma checkOrderRisk_locked order portfolio rm log :
  mutex_ rm = true -> checkOrderRisk order portfolio rm log = Deadlock rm log.
Proof. intros H. unfold checkOrderRisk, lock_guard. now rewrite H. Qed.

(** The four public methods all start by locking the one mutex: none of them
    reads or writes the prices or the metrics while it is owned. *)
Lemma methods_serialise_on_the_mutex order portfolio prices rm log :
  mutex_ rm = true ->
  checkOrderRisk order portfolio rm log = Deadlock rm log /\
  updateRiskMetrics portfolio rm log = Deadlock rm log /\
  getRiskMetrics rm log = Deadlock rm log /\
  updateCurrentPrices prices rm log = Deadlock rm log.
Proof.
  intros H. repeat split;
    [ now apply checkOrderRisk_locked | now apply updateRiskMetrics_locked
    | unfold getRiskMetrics, lock_guard; now rewrite H
    | unfold updateCurrentPrices, lock_guard; now rewrite H ].
Qed.

(** With the mutex free, a price update replaces the snapshot wholesale and a
    read of the metrics returns the stored mapping by value. *)
Lemma updateCurrentPrices_replaces prices rm log :
  mutex_ rm = false ->
  updateCurrentPrices prices rm log = Returned tt (with_prices rm prices) log.
Proof.
  destruct rm as [limits old metrics locked]. cbn. intros ->. reflexivity.
Qed.

Lemma getRiskMetrics_returns rm log :
  mutex_ rm = false ->
  getRiskMetrics rm log = Returned (current_metrics_ rm) rm log.
Proof.
  destruct rm as [limits prices metrics locked]. cbn. intros ->. reflexivity.
Qed.

(** One call from a thread that does not own the mutex: the first failing
    check returns [false] with its warning and leaves the manager as it
    was; when no check fails the call stops at the lock of the refresh. *)
Lemma checkOrderRisk_cases order portfolio rm log portfolio_value :
  mutex_ rm = false ->
  Portfolio.getTotalValue portfolio (current_prices_ rm) = Some portfolio_value ->
  let limits := limits_ rm in
  let position_value := (Order.getQuantity order * Order.getPrice order)%double in
  let total_exposure := (Portfolio.getTotalExposure portfolio + position_value)%double in
  let new_position_size :=
    ((match Portfolio.getPosition portfolio (Order.getSymbol order) with
      | Some p => Position.getQuantity p
      | None => Double.of_Z 0
      end) + Order.getQuantity order)%double in
  let new_concentration :=
    (new_position_size * Order.getPrice order / portfolio_value)%double in
  checkOrderRisk order portfolio rm log =
    if (position_value / portfolio_value >? max_position_size limits)%double then
      Returned false rm
        (log ++ [Warn ("Position size limit exceeded for " ++ Order.getSymbol order)])
    else if (total_exposure / portfolio_value >? max_leverage limits)%double then
      Returned false rm (log ++ [Warn "Leverage limit exceeded"])
    else if (Portfolio.getDrawdown portfolio >? max_drawdown limits)%double then
      Returned false rm (log ++ [Warn "Drawdown limit exceeded"])
    else if (Portfolio.getDailyPnL portfolio <? - daily_loss_limit limits)%double then
      Returned false rm (log ++ [Warn "Daily loss limit exceeded"])
    else if (new_concentration >? position_concentration limits)%double then
      Returned false rm
        (log ++ [Warn ("Position concentration limit exceeded for " ++ Order.getSymbol order)])
    else Deadlock (with_mutex rm true) log.
Proof.
  intros Hm Hv. cbv zeta.
  destruct rm as [limits prices metrics locked]. cbn in Hm, Hv. subst locked.
  cbv beta iota zeta delta
    [checkOrderRisk updateRiskMetrics lock_guard try_catch bind get put ret throw spdlog
     with_mutex with_metrics limits_ current_prices_ current_metrics_ mutex_].
  rewrite Hv. cbv beta iota.
  repeat match goal with
         | |- _ = (if ?c then _ else _) => destruct c; [reflexivity |]
         end.
  reflexivity.
Qed.

End CheckOrderRisk.

(** ** Properties of the risk check *)

Section RiskCheckProperties.

Import RiskManager.

(** C3: an order whose notional over the portfolio value is above
    max_position_size is rejected whatever the other limits and the
    portfolio aggregates are; only the position-size warning is logged, and
    the manager, its metrics mapping included, is the same after the call
    as before. *)
Theorem position_size_rejection_short_circuits
    order portfolio rm log portfolio_value :
  mutex_ rm = false ->
  Portfolio.getTotalValue portfolio (current_prices_ rm) = Some portfolio_value ->
  (Order.getQuantity order * Order.getPrice order / portfolio_value
     >? max_position_size (limits_ rm))%double = true ->
  checkOrderRisk order portfolio rm log
  = Returned false rm
      (log ++ [Warn ("Position size limit exceeded for " ++ Order.getSymbol order)]).
Proof.
  intros Hm Hv Hsize.
  rewrite (checkOrderRisk_cases order portfolio rm log portfolio_value Hm Hv).
  cbv zeta. now rewrite Hsize.
Qed.

(** An order of 3000 shares at 900 also exceeds the leverage limit (2.7
    against 2.0), and is rejected citing the position size. *)
Lemma position_size_rejection_short_circuits_witness :
  mutex_ Scenario.manager = false /\
  ((Portfolio.getTotalExposure Portfolio.initial
      + Double.of_Z 3000 * Double.of_Z 900) / Double.of_Z 1000000
     >? max_leverage Scenario.limits)%double = true /\
  checkOrderRisk (Scenario.order_at "ORD1" "AAPL" 3000 900) Portfolio.initial
      Scenario.manager []
  = Returned false Scenario.manager [Warn "Position size limit exceeded for AAPL"].
Proof.
  split; [reflexivity | split; [reflexivity |]].
  apply (position_size_rejection_short_circuits
           (Scenario.order_at "ORD1" "AAPL" 3000 900) Portfolio.initial
           Scenario.manager [] (Double.of_Z 1000000)); reflexivity.
Defined.

(** With the price unset, the two quotients that depend on the price are a
    zero or a NaN. *)
Lemma unset_price_notional order portfolio_value :
  Double.is_zero (Order.getPrice order) = true ->
  Double.zero_or_nan
    (Order.getQuantity order * Order.getPrice order / portfolio_value)%double = true.
Proof. intros Hp. apply div_zero_or_nan, mul_zero_r, Hp. Qed.

Lemma unset_price_concentration order size portfolio_value :
  Double.is_zero (Order.getPrice order) = true ->
  Double.zero_or_nan (size * Order.getPrice order / portfolio_value)%double = true.
Proof. intros Hp. apply div_zero_or_nan, mul_zero_r, Hp. Qed.

(** C2 (amended): every order of the control loop is a market order whose
    price is the unset 0; and an order whose price is 0 is never rejected
    on position size nor on concentration, for any quantity, provided the
    two limits max_position_size and position_concentration are not
    negative: a rejection of such an order cites leverage, drawdown or
    daily loss. *)
Theorem unset_price_skips_size_and_concentration order portfolio rm log :
  Double.is_zero (Order.getPrice order) = true ->
  mutex_ rm = false ->
  (max_position_size (limits_ rm) <? Double.zero)%double = false ->
  (position_concentration (limits_ rm) <? Double.zero)%double = false ->
  (forall counter now pf prices fraction signal o counter',
      TradingEngine.createOrder counter now pf prices fraction signal = Some (o, counter') ->
      Order.getType o = MARKET /\ Order.getPrice o = Double.zero) /\
  ~ rejected_citing ("Position size limit exceeded for " ++ Order.getSymbol order) log
      (checkOrderRisk order portfolio rm log) /\
  ~ rejected_citing ("Position concentration limit exceeded for " ++ Order.getSymbol order) log
      (checkOrderRisk order portfolio rm log) /\
  (forall rm' log',
      checkOrderRisk order portfolio rm log = Returned false rm' log' ->
      rejected_citing "Leverage limit exceeded" log (checkOrderRisk order portfolio rm log) \/
      rejected_citing "Drawdown limit exceeded" log (checkOrderRisk order portfolio rm log) \/
      rejected_citing "Daily loss limit exceeded" log (checkOrderRisk order portfolio rm log)).
Proof.
  intros Hp Hm Hsize Hconc.
  split.
  { intros counter now pf prices fraction signal o counter'.
    unfold TradingEngine.createOrder, Order.construct.
    destruct (TradingEngine.calculateOrderSize pf prices fraction signal); [| discriminate].
    destruct (Order.generateOrderId counter) as [[id c] |]; [| discriminate].
    intros [= <- _]. split; reflexivity. }
  destruct (getTotalValue_returns portfolio (current_prices_ rm)) as [pv Hv].
  rewrite (checkOrderRisk_cases order portfolio rm log pv Hm Hv). cbv zeta.
  rewrite (gtb_zero_or_nan _ _ (unset_price_notional order pv Hp) Hsize).
  rewrite (gtb_zero_or_nan _ _ (unset_price_concentration order _ pv Hp) Hconc).
  unfold rejected_citing.
  repeat match goal with
         | |- context [if ?c then _ else _] => destruct c
         end;
    (split; [| split]);
    try (intros [rm' E]; injection E as _ E; apply app_inv_head in E; discriminate E);
    try (intros [rm' E]; discriminate E);
    intros rm' log' E; try discriminate E.
  - left. now exists rm.
  - right; left. now exists rm.
  - right; right. now exists rm.
Qed.

Lemma unset_price_skips_size_and_concentration_witness :
  Double.is_zero (Order.getPrice (Scenario.market_order 100)) = true /\
  ~ rejected_citing "Position size limit exceeded for AAPL" []
      (checkOrderRisk (Scenario.market_order 100) Portfolio.initial Scenario.manager []) /\
  ~ rejected_citing "Position concentration limit exceeded for AAPL" []
      (checkOrderRisk (Scenario.market_order 100) Portfolio.initial Scenario.manager []).
Proof.
  split; [reflexivity |].
  pose proof (unset_price_skips_size_and_concentration
                (Scenario.market_order 100) Portfolio.initial Scenario.manager []
                eq_refl eq_refl eq_refl eq_refl) as [_ [H1 [H2 _]]].
  split; assumption.
Defined.

(** C2 as stated fails: with the position-size limit at -0.1 the zero
    notional of a market order is above the limit, and the order is
    rejected citing the position size. *)
Lemma unset_price_rejected_on_position_size :
  Order.getPrice (Scenario.market_order 100) = Double.zero /\
  checkOrderRisk (Scenario.market_order 100) Portfolio.initial
      (RiskManager.construct Scenario.negative_size_limits) []
  = Returned false (RiskManager.construct Scenario.negative_size_limits)
      [Warn "Position size limit exceeded for AAPL"].
Proof. split; reflexivity. Qed.

(** C1: a market order against a portfolio whose total value is zero: the
    order the control loop itself sizes from that value (quantity 0), and an
    order for 100 shares.  Nothing throws: the notional over the value is
    0 / 0, a NaN, no comparison with it holds, the order passes the five
    checks and the call goes on to the refresh of the metrics instead of
    returning a rejection. *)
Theorem zero_value_portfolio_is_not_rejected :
  Portfolio.getTotalValue Scenario.no_value (current_prices_ Scenario.manager)
  = Some Double.zero /\
  TradingEngine.createOrder 0 0 Scenario.no_value StdMap.empty (Double.of_ratio 1 10)
      (TradingEngine.mkSignal "AAPL" BUY (Double.of_Z 1))
  = Some (Scenario.market_order 0, 1%Z) /\
  checkOrderRisk (Scenario.market_order 0) Scenario.no_value Scenario.manager []
  = Deadlock (with_mutex Scenario.manager true) [] /\
  (Order.getQuantity (Scenario.market_order 100) * Order.getPrice (Scenario.market_order 100)
     / Double.zero)%double = Double.nan /\
  checkOrderRisk (Scenario.market_order 100) Scenario.no_value Scenario.manager []
  = Deadlock (with_mutex Scenario.manager true) [] /\
  ~ (exists rm' log',
        checkOrderRisk (Scenario.market_order 100) Scenario.no_value Scenario.manager []
        = Returned false rm' log').
Proof.
  repeat split; try reflexivity.
  intros (rm' & log' & E). vm_compute in E. discriminate E.
Qed.


(** C5: an order that passes the five checks.  The call reaches
    [updateRiskMetrics] with the mutex owned, and goes no further: it
    returns nothing, neither accept nor reject, and the metrics mapping is
    as it was. *)
Theorem passing_order_stops_at_the_refresh order portfolio rm log portfolio_value :
  mutex_ rm = false ->
  Portfolio.getTotalValue portfolio (current_prices_ rm) = Some portfolio_value ->
  let limits := limits_ rm in
  let position_value := (Order.getQuantity order * Order.getPrice order)%double in
  let existing :=
    match Portfolio.getPosition portfolio (Order.getSymbol order) with
    | Some p => Position.getQuantity p
    | None => Double.of_Z 0
    end in
  (position_value / portfolio_value >? max_position_size limits)%double = false ->
  ((Portfolio.getTotalExposure portfolio + position_value) / portfolio_value
     >? max_leverage limits)%double = false ->
  (Portfolio.getDrawdown portfolio >? max_drawdown limits)%double = false ->
  (Portfolio.getDailyPnL portfolio <? - daily_loss_limit limits)%double = false ->
  ((existing + Order.getQuantity order) * Order.getPrice order / portfolio_value
     >? position_concentration limits)%double = false ->
  checkOrderRisk order portfolio rm log = Deadlock (with_mutex rm true) log /\
  current_metrics_ (with_mutex rm true) = current_metrics_ rm /\
  (forall accepted rm' log',
      checkOrderRisk order portfolio rm log <> Returned accepted rm' log').
Proof.
  intros Hm Hv limits position_value existing H1 H2 H3 H4 H5.
  assert (E : checkOrderRisk order portfolio rm log = Deadlock (with_mutex rm true) log).
  { rewrite (checkOrderRisk_cases order portfolio rm log portfolio_value Hm Hv). cbv zeta.
    subst limits position_value existing. now rewrite H1, H2, H3, H4, H5. }
  split; [exact E |]. split; [reflexivity |].
  intros accepted rm' log'. rewrite E. discriminate.
Qed.

Lemma passing_order_stops_at_the_refresh_witness :
  mutex_ Scenario.manager = false /\
  Portfolio.getTotalValue Portfolio.initial (current_prices_ Scenario.manager)
  = Some (Double.of_Z 1000000) /\
  checkOrderRisk (Scenario.order_at "ORD1" "AAPL" 100 900) Portfolio.initial
      Scenario.manager []
  = Deadlock (with_mutex Scenario.manager true) [] /\
  current_metrics_ (with_mutex Scenario.manager true) = StdMap.empty.
Proof.
  split; [reflexivity |]. split; [reflexivity |].
  pose proof (passing_order_stops_at_the_refresh
                (Scenario.order_at "ORD1" "AAPL" 100 900) Portfolio.initial
                Scenario.manager [] (Double.of_Z 1000000)
                eq_refl eq_refl eq_refl eq_refl eq_refl eq_refl eq_refl) as [H1 [H2 _]].
  split; [exact H1 | exact H2].
Defined.

(** The refresh called on its own, as the control loop does once per
    iteration, stores the four aggregates of the portfolio, and
    [getRiskMetrics] then returns them. *)
Lemma updateRiskMetrics_stores_aggregates portfolio rm log :
  mutex_ rm = false ->
  exists rm' log',
    updateRiskMetrics portfolio rm log = Returned tt rm' log' /\
    limits_ rm' = limits_ rm /\ current_prices_ rm' = current_prices_ rm /\
    mutex_ rm' = false /\
    getRiskMetrics rm' log' = Returned (current_metrics_ rm') rm' log' /\
    StdMap.find (current_metrics_ rm') "drawdown" = Some (Portfolio.getDrawdown portfolio) /\
    StdMap.find (current_metrics_ rm') "leverage" = Some (Portfolio.getLeverage portfolio) /\
    StdMap.find (current_metrics_ rm') "daily_pnl" = Some (Portfolio.getDailyPnL portfolio) /\
    StdMap.find (current_metrics_ rm') "concentration"
    = Some (Portfolio.getConcentration portfolio).
Proof.
  intros Hm. destruct rm as [limits prices metrics locked]. cbn in Hm. subst locked.
  eexists. eexists. split; [reflexivity |].
  cbn [limits_ current_prices_ current_metrics_ mutex_ with_metrics with_mutex].
  repeat split.
  - rewrite !find_set_other by discriminate. apply find_set_same.
  - rewrite !find_set_other by discriminate. apply find_set_same.
  - rewrite !find_set_other by discriminate. apply find_set_same.
  - apply find_set_same.
Qed.

(** Once the first four checks have passed, the order is rejected exactly
    when the new concentration is above the limit. *)
Lemma concentration_check_decides order portfolio rm log portfolio_value :
  mutex_ rm = false ->
  Portfolio.getTotalValue portfolio (current_prices_ rm) = Some portfolio_value ->
  let limits := limits_ rm in
  let position_value := (Order.getQuantity order * Order.getPrice order)%double in
  let existing :=
    match Portfolio.getPosition portfolio (Order.getSymbol order) with
    | Some p => Position.getQuantity p
    | None => Double.of_Z 0
    end in
  (position_value / portfolio_value >? max_position_size limits)%double = false ->
  ((Portfolio.getTotalExposure portfolio + position_value) / portfolio_value
     >? max_leverage limits)%double = false ->
  (Portfolio.getDrawdown portfolio >? max_drawdown limits)%double = false ->
  (Portfolio.getDailyPnL portfolio <? - daily_loss_limit limits)%double = false ->
  (exists rm' log', checkOrderRisk order portfolio rm log = Returned false rm' log')
  <->
  ((existing + Order.getQuantity order) * Order.getPrice order / portfolio_value
     >? position_concentration limits)%double = true.
Proof.
  intros Hm Hv limits position_value existing H1 H2 H3 H4.
  rewrite (checkOrderRisk_cases order portfolio rm log portfolio_value Hm Hv). cbv zeta.
  subst limits position_value existing. rewrite H1, H2, H3, H4.
  match goal with |- context [if ?c then _ else _] => destruct c end.
  - split; [reflexivity |]. intros _. eexists. eexists. reflexivity.
  - split; [| discriminate]. intros (rm' & log' & E). discriminate E.
Qed.

(** C8: the example of the specification.  The five checks pass for the
    100 shares at 900 and for the 50 more (concentration 13.5%), yet
    neither call returns: each stops at the lock of the refresh.  The 20
    further shares bring the concentration to 15.3% and are rejected citing
    the concentration. *)
Theorem concentration_scenario :
  checkOrderRisk (Scenario.order_at "ORD1" "AAPL" 100 900) Portfolio.initial
      Scenario.manager []
  = Deadlock (with_mutex Scenario.manager true) [] /\
  Portfolio.getTotalValue Scenario.after_first_fill Scenario.prices
  = Some (Double.of_Z 1000000) /\
  ((Double.of_Z 100 + Double.of_Z 50) * Double.of_Z 900 / Double.of_Z 1000000)%double
  = Double.of_ratio 135 1000 /\
  checkOrderRisk (Scenario.order_at "ORD2" "AAPL" 50 900) Scenario.after_first_fill
      (Scenario.priced Scenario.manager) []
  = Deadlock (with_mutex (Scenario.priced Scenario.manager) true) [] /\
  checkOrderRisk (Scenario.order_at "ORD3" "AAPL" 20 900) Scenario.after_second_fill
      (Scenario.priced Scenario.manager) []
  = Returned false (Scenario.priced Scenario.manager)
      [Warn "Position concentration limit exceeded for AAPL"].
Proof. repeat split; vm_compute; reflexivity. Qed.

(** C10: whatever the order, the portfolio and the state of the manager,
    [checkOrderRisk] does not return [true]: it returns [false], or it
    stops for ever at a lock of the mutex, which for an order that passes
    the checks is the lock taken by [updateRiskMetrics] while
    [checkOrderRisk] itself owns the mutex. *)
Theorem checkOrderRisk_never_accepts order portfolio rm log :
  (exists rm' log', checkOrderRisk order portfolio rm log = Returned false rm' log') \/
  (exists rm' log', checkOrderRisk order portfolio rm log = Deadlock rm' log' /\
                    mutex_ rm' = true).
Proof.
  destruct (mutex_ rm) eqn:Hm.
  - right. exists rm, log. split; [now apply checkOrderRisk_locked | exact Hm].
  - destruct (getTotalValue_returns portfolio (current_prices_ rm)) as [pv Hv].
    rewrite (checkOrderRisk_cases order portfolio rm log pv Hm Hv). cbv zeta.
    repeat match goal with
           | |- context [if ?c then _ else _] => destruct c
           end;
      try (left; eexists; eexists; reflexivity).
    right. eexists. eexists. split; reflexivity.
Qed.

End RiskCheckProperties.

(** ** Properties of the domain model *)

Section DomainModel.

(** C4 as stated fails.  A long position of 10 at 100 sold 15 at 120 is
    short 5 with an average price of 160, not 120; sold 5 at 120 it is long
    5 with an average price of 80, not 100. *)
Lemma updatePosition_blends_across_flip_and_reduction :
  Position.getQuantity Scenario.long_10_at_100 = Double.of_Z 10 /\
  Position.getAveragePrice Scenario.long_10_at_100 = Double.of_Z 100 /\
  Position.getQuantity
    (Position.updatePosition Scenario.long_10_at_100 (Double.of_Z (-15)) (Double.of_Z 120))
  = Double.of_Z (-5) /\
  Position.getAveragePrice
    (Position.updatePosition Scenario.long_10_at_100 (Double.of_Z (-15)) (Double.of_Z 120))
  = Double.of_Z 160 /\
  Double.of_Z 160 <> Double.of_Z 120 /\
  Position.getQuantity
    (Position.updatePosition Scenario.long_10_at_100 (Double.of_Z (-5)) (Double.of_Z 120))
  = Double.of_Z 5 /\
  Position.getAveragePrice
    (Position.updatePosition Scenario.long_10_at_100 (Double.of_Z (-5)) (Double.of_Z 120))
  = Double.of_Z 80 /\
  Double.of_Z 80 <> Double.of_Z 100.
Proof. repeat split; try reflexivity; vm_compute; discriminate. Qed.

(** C4 (amended): the new net quantity is the old one plus the delta.
    Whenever it is not zero, be the trade an increase, a reduction or a
    flip of the sign, the new average price is the blend
    (old average * (new quantity - delta) + price * delta) / new quantity
    in double arithmetic; when the trade nets the quantity to zero the
    quantity is a zero afterwards and the average price is left as it was. *)
Theorem updatePosition_always_blends p quantity price :
  let p' := Position.updatePosition p quantity price in
  Position.symbol_ p' = Position.symbol_ p /\
  Position.getQuantity p' = (Position.getQuantity p + quantity)%double /\
  (Double.neb (Position.getQuantity p') (Double.of_Z 0) = true ->
     Position.getAveragePrice p'
     = ((Position.getAveragePrice p * (Position.getQuantity p' - quantity)
         + price * quantity) / Position.getQuantity p')%double) /\
  (Double.eqb (Position.getQuantity p') (Double.of_Z 0) = true ->
     Double.is_zero (Position.getQuantity p') = true /\
     Position.getAveragePrice p' = Position.getAveragePrice p).
Proof.
  cbv zeta. unfold Position.updatePosition, Position.getQuantity, Position.getAveragePrice.
  unfold Double.neb, Double.eqb.
  destruct (SFeqb (Position.quantity_ p + quantity)%double (Double.of_Z 0)) eqn:E;
    cbn [negb Position.quantity_ Position.average_price_ Position.symbol_];
    rewrite ?E; cbn [negb].
  - split; [reflexivity |]. split; [reflexivity |].
    split; [intros H; discriminate H |]. intros _. split; [| reflexivity].
    destruct (Position.quantity_ p + quantity)%double as [sq | sq | | sq mq eq];
      try reflexivity; try discriminate E.
    + destruct sq; discriminate E.
    + destruct sq; discriminate E.
  - split; [reflexivity |]. split; [reflexivity |].
    split; [intros _; reflexivity |]. intros H; discriminate H.
Qed.

(** The three kinds of trade on a long position of 10 at 100: 10 more at
    120 give 110, and a reduction and a flip go through the same blend. *)
Lemma updatePosition_always_blends_witness :
  Position.getAveragePrice
    (Position.updatePosition Scenario.long_10_at_100 (Double.of_Z 10) (Double.of_Z 120))
  = ((Double.of_Z 100 * (Double.of_Z 20 - Double.of_Z 10)
      + Double.of_Z 120 * Double.of_Z 10) / Double.of_Z 20)%double /\
  Position.getAveragePrice
    (Position.updatePosition Scenario.long_10_at_100 (Double.of_Z 10) (Double.of_Z 120))
  = Double.of_Z 110.
Proof.
  split; [| reflexivity].
  exact (proj1 (proj2 (proj2
           (updatePosition_always_blends Scenario.long_10_at_100
              (Double.of_Z 10) (Double.of_Z 120)))) eq_refl).
Defined.

Lemma to_string_inj (n n' : Z) : Order.to_string n = Order.to_string n' -> n = n'.
Proof.
  unfold Order.to_string. intros E.
  apply DecimalZ.to_int_inj.
  pose proof (NilEmpty.isi (Z.to_int n)) as H. rewrite E in H.
  rewrite NilEmpty.isi in H. now injection H.
Qed.

Lemma generateOrderId_spec (counter : Z) :
  (counter < Order.INT_MAX)%Z ->
  Order.generateOrderId counter
  = Some ("ORD" ++ Order.to_string (counter + 1), (counter + 1)%Z).
Proof.
  intros H. unfold Order.generateOrderId.
  now rewrite (proj2 (Z.ltb_lt _ _) H).
Qed.

(** The orders built from [counter] carry the numbers above [counter]. *)
Lemma construct_all_ids (requests : list Order.request) : forall counter,
  (counter + Z.of_nat (List.length requests) <= Order.INT_MAX)%Z ->
  exists orders,
    Order.construct_all counter requests
    = Some (orders, (counter + Z.of_nat (List.length requests))%Z) /\
    map Order.getQuantity orders = map Order.req_quantity requests /\
    Forall Order.freshly_initialised orders /\
    NoDup (map Order.getOrderId orders) /\
    (forall o, In o orders ->
       exists k, (counter < k)%Z /\ Order.getOrderId o = "ORD" ++ Order.to_string k).
Proof.
  induction requests as [| r rest IH]; intros counter Hc.
  - exists []. cbn. rewrite Z.add_0_r.
    repeat split; try constructor. intros o [].
  - cbn [List.length] in Hc. rewrite Nat2Z.inj_succ in Hc.
    destruct (IH (counter + 1)%Z ltac:(lia)) as (os & Hos & Hq & Hf & Hn & Hk).
    cbn [Order.construct_all]. unfold Order.construct.
    rewrite generateOrderId_spec by lia. rewrite Hos.
    eexists. split.
    { f_equal. f_equal. cbn [List.length]. lia. }
    repeat split.
    + cbn. now rewrite Hq.
    + constructor; [repeat split | exact Hf].
    + cbn [map]. constructor; [| exact Hn].
      intros Hin. apply in_map_iff in Hin as (o & Ho & Hino).
      destruct (Hk o Hino) as (k & Hlt & Hid).
      rewrite Hid in Ho. cbn in Ho. injection Ho as Ho. apply to_string_inj in Ho. lia.
    + intros o [<- | Hin].
      * exists (counter + 1)%Z. split; [lia | reflexivity].
      * destruct (Hk o Hin) as (k & Hlt & Hid). exists k. split; [lia | exact Hid].
Qed.

(** C6 as stated fails: the constructor checks nothing, and an order for
    -5 shares, or for none, is constructed like any other. *)
Lemma order_with_non_positive_quantity_is_constructed :
  (Double.of_Z (-5) <? Double.zero)%double = true /\
  (exists o, Order.construct 0 0 "AAPL" BUY MARKET (Double.of_Z (-5)) = Some (o, 1%Z) /\
             Order.getQuantity o = Double.of_Z (-5)) /\
  (exists o, Order.construct 1 0 "AAPL" SELL LIMIT (Double.of_Z 0) = Some (o, 2%Z) /\
             Order.getQuantity o = Double.of_Z 0).
Proof. repeat split; eexists; split; reflexivity. Qed.

(** C6 (amended): construction does not look at the quantity.  As long as
    the int counter of the ids does not overflow, every construction
    succeeds, for every quantity, positive or not; the order carries the
    requested quantity, an id "ORD<n>" that no other order of the process
    has, the status pending, a filled quantity of 0 and the unset price 0. *)
Theorem construct_all_orders counter requests :
  (counter + Z.of_nat (List.length requests) <= Order.INT_MAX)%Z ->
  exists orders,
    Order.construct_all counter requests
    = Some (orders, (counter + Z.of_nat (List.length requests))%Z) /\
    map Order.getQuantity orders = map Order.req_quantity requests /\
    NoDup (map Order.getOrderId orders) /\
    Forall Order.freshly_initialised orders.
Proof.
  intros Hc. destruct (construct_all_ids requests counter Hc) as (os & H1 & H2 & H3 & H4 & _).
  exists os. repeat split; assumption.
Qed.

Lemma construct_all_orders_witness :
  exists orders,
    Order.construct_all 0
      [Order.mkRequest 0 "AAPL" BUY MARKET (Double.of_Z 100);
       Order.mkRequest 1 "AAPL" SELL LIMIT (Double.of_Z (-5))]
    = Some (orders, 2%Z) /\
    map Order.getOrderId orders = ["ORD1"; "ORD2"].
Proof.
  destruct (construct_all_orders 0
              [Order.mkRequest 0 "AAPL" BUY MARKET (Double.of_Z 100);
               Order.mkRequest 1 "AAPL" SELL LIMIT (Double.of_Z (-5))]
              ltac:(vm_compute; discriminate)) as (os & H & _).
  exists os. split; [exact H |].
  cbn in H. injection H as <-. reflexivity.
Defined.

Lemma priced_values_app current_prices (l1 l2 : StdMap.t Position.t) :
  Portfolio.priced_values current_prices (l1 ++ l2)%list
  = (Portfolio.priced_values current_prices l1
     ++ Portfolio.priced_values current_prices l2)%list.
Proof. unfold Portfolio.priced_values. apply flat_map_app. Qed.

(** C7: the total value is the cash plus, added in key order, quantity *
    price for exactly the held positions whose symbol has a price; a held
    position without a price adds nothing, as if it were not held, and the
    call returns a value in every case. *)
Theorem getTotalValue_sums_priced_positions pf current_prices :
  Portfolio.getTotalValue pf current_prices
  = Some (Portfolio.sum_from (Portfolio.getCash pf)
            (Portfolio.priced_values current_prices (Portfolio.positions_ pf))) /\
  (forall before symbol position after,
      Portfolio.positions_ pf = (before ++ (symbol, position) :: after)%list ->
      match StdMap.find current_prices symbol with
      | Some price =>
          Portfolio.priced_values current_prices (Portfolio.positions_ pf)
          = (Portfolio.priced_values current_prices before
             ++ (Position.getQuantity position * price)%double
                :: Portfolio.priced_values current_prices after)%list
      | None =>
          Portfolio.priced_values current_prices (Portfolio.positions_ pf)
          = Portfolio.priced_values current_prices (before ++ after)%list /\
          Portfolio.getTotalValue pf current_prices
          = Portfolio.getTotalValue (Portfolio.with_positions pf (before ++ after)%list)
              current_prices
      end).
Proof.
  split; [apply getTotalValue_loop_sum |].
  intros before symbol position after Hpos.
  assert (Hvals :
    Portfolio.priced_values current_prices (Portfolio.positions_ pf)
    = (Portfolio.priced_values current_prices before
       ++ match StdMap.find current_prices symbol with
          | Some price => [(Position.getQuantity position * price)%double]
          | None => []
          end ++ Portfolio.priced_values current_prices after)%list).
  { rewrite Hpos, priced_values_app. f_equal. }
  destruct (StdMap.find current_prices symbol) as [price |].
  - exact Hvals.
  - assert (Hsame :
      Portfolio.priced_values current_prices (Portfolio.positions_ pf)
      = Portfolio.priced_values current_prices (before ++ after)%list).
    { rewrite Hvals, priced_values_app. reflexivity. }
    split; [exact Hsame |].
    unfold Portfolio.getTotalValue. rewrite !getTotalValue_loop_sum.
    cbn [Portfolio.positions_ Portfolio.cash_ Portfolio.with_positions].
    now rewrite Hsame.
Qed.

(** AAPL and MSFT are held, only MSFT has a price: the value is the cash
    plus 20 * 310, the same as without the AAPL position. *)
Lemma getTotalValue_sums_priced_positions_witness :
  StdMap.keys (Portfolio.positions_ Scenario.two_positions) = ["AAPL"; "MSFT"] /\
  StdMap.find Scenario.msft_only "AAPL" = None /\
  Portfolio.getTotalValue Scenario.two_positions Scenario.msft_only
  = Some (Double.of_Z 1006200) /\
  Portfolio.getTotalValue Scenario.two_positions Scenario.msft_only
  = Portfolio.getTotalValue
      (Portfolio.with_positions Scenario.two_positions
         [("MSFT", Position.mk "MSFT" (Double.of_Z 20) (Double.of_Z 300))])
      Scenario.msft_only.
Proof.
  split; [reflexivity |]. split; [reflexivity |]. split; [reflexivity |].
  exact (proj2 (proj2 (getTotalValue_sums_priced_positions
                         Scenario.two_positions Scenario.msft_only)
                  [] "AAPL" (Position.mk "AAPL" (Double.of_Z 100) (Double.of_Z 900))
                  [("MSFT", Position.mk "MSFT" (Double.of_Z 20) (Double.of_Z 300))]
                  eq_refl)).
Defined.

(** Neither mutator of the portfolio touches an aggregate. *)
Lemma apply_keeps_aggregates pf o :
  Portfolio.getTotalExposure (Portfolio.apply pf o) = Portfolio.getTotalExposure pf /\
  Portfolio.getDrawdown (Portfolio.apply pf o) = Portfolio.getDrawdown pf /\
  Portfolio.getLeverage (Portfolio.apply pf o) = Portfolio.getLeverage pf /\
  Portfolio.getDailyPnL (Portfolio.apply pf o) = Portfolio.getDailyPnL pf /\
  Portfolio.getConcentration (Portfolio.apply pf o) = Portfolio.getConcentration pf.
Proof. destruct o; repeat split. Qed.

Lemma run_keeps_aggregates ops : forall pf,
  Portfolio.getTotalExposure (Portfolio.run ops pf) = Portfolio.getTotalExposure pf /\
  Portfolio.getDrawdown (Portfolio.run ops pf) = Portfolio.getDrawdown pf /\
  Portfolio.getLeverage (Portfolio.run ops pf) = Portfolio.getLeverage pf /\
  Portfolio.getDailyPnL (Portfolio.run ops pf) = Portfolio.getDailyPnL pf /\
  Portfolio.getConcentration (Portfolio.run ops pf) = Portfolio.getConcentration pf.
Proof.
  induction ops as [| o ops IH]; intros pf.
  - repeat split.
  - cbn [Portfolio.run fold_left].
    destruct (IH (Portfolio.apply pf o)) as (E1 & E2 & E3 & E4 & E5).
    destruct (apply_keeps_aggregates pf o) as (A1 & A2 & A3 & A4 & A5).
    unfold Portfolio.run in *.
    repeat split; congruence.
Qed.

(** C9: after any sequence of updatePosition and updateCash calls on a new
    portfolio, total exposure, drawdown, leverage, daily P&L and
    concentration are still 0, 0, 1, 0 and 0 (the risk manager receives the
    portfolio read-only and hands none back); so the leverage check adds
    the notional to an exposure of 0, and the drawdown and daily-loss
    checks compare 0 with their limits. *)
Theorem aggregates_are_never_written ops :
  let pf := Portfolio.run ops Portfolio.initial in
  (Portfolio.getTotalExposure pf = Double.of_Z 0 /\
   Portfolio.getDrawdown pf = Double.of_Z 0 /\
   Portfolio.getLeverage pf = Double.of_Z 1 /\
   Portfolio.getDailyPnL pf = Double.of_Z 0 /\
   Portfolio.getConcentration pf = Double.of_Z 0) /\
  (forall limits position_value portfolio_value,
      ((Portfolio.getTotalExposure pf + position_value) / portfolio_value
         >? max_leverage limits)%double
      = ((Double.of_Z 0 + position_value) / portfolio_value >? max_leverage limits)%double /\
      (Portfolio.getDrawdown pf >? max_drawdown limits)%double
      = (Double.of_Z 0 >? max_drawdown limits)%double /\
      (Portfolio.getDailyPnL pf <? - daily_loss_limit limits)%double
      = (Double.of_Z 0 <? - daily_loss_limit limits)%double).
Proof.
  cbv zeta.
  destruct (run_keeps_aggregates ops Portfolio.initial) as (E1 & E2 & E3 & E4 & E5).
  split.
  - rewrite E1, E2, E3, E4, E5. repeat split.
  - intros limits position_value portfolio_value. rewrite E1, E2, E4. repeat split.
Qed.

End DomainModel.


(** ** More on the domain model *)

Section PortfolioBookkeeping.

Lemma key_lt_irrefl (k : string) : ~ key_lt k k.
Proof.
  unfold key_lt. intros H.
  pose proof (String.compare_antisym k k) as A. rewrite H in A. discriminate A.
Qed.

Lemma key_lt_trans (a b c : string) : key_lt a b -> key_lt b c -> key_lt a c.
Proof.
  unfold key_lt. intros H1 H2.
  apply String_as_OT.cmp_lt. apply String_as_OT.cmp_lt in H1, H2.
  exact (String_as_OT.lt_trans _ _ _ H1 H2).
Qed.

Lemma compare_Gt_key_lt (k k' : string) : String.compare k k' = Gt -> key_lt k' k.
Proof.
  unfold key_lt. intros H. rewrite String.compare_antisym, H. reflexivity.
Qed.

Lemma set_keys_head {V : Type} (m : StdMap.t V) (k : string) (v : V) (a : string) :
  HdRel key_lt a (StdMap.keys m) -> key_lt a k ->
  HdRel key_lt a (StdMap.keys (StdMap.set m k v)).
Proof.
  destruct m as [| [k' v'] rest]; cbn; intros Hhd Hk.
  - constructor. exact Hk.
  - destruct (String.compare k k'); cbn; constructor;
      solve [exact Hk | now inversion Hhd].
Qed.

Lemma set_keeps_ascending {V : Type} (m : StdMap.t V) (k : string) (v : V) :
  ascending (StdMap.keys m) -> ascending (StdMap.keys (StdMap.set m k v)).
Proof.
  unfold ascending.
  induction m as [| [k' v'] rest IH]; cbn; intros Hs.
  - repeat constructor.
  - inversion Hs as [| ? ? Hrest Hhd]; subst.
    destruct (String.compare k k') eqn:C; cbn.
    + apply String.compare_eq_iff in C. subst k'. constructor; assumption.
    + constructor; [exact Hs |]. constructor. exact C.
    + constructor; [apply IH; exact Hrest |].
      apply set_keys_head; [exact Hhd | now apply compare_Gt_key_lt].
Qed.

Lemma ascending_NoDup (keys : list string) : ascending keys -> NoDup keys.
Proof.
  intros Hs. apply Sorted_StronglySorted in Hs; [| exact key_lt_trans].
  induction Hs as [| k rest Hrest IH Hall]; constructor; [| exact IH].
  intros Hin. rewrite Forall_forall in Hall.
  exact (key_lt_irrefl k (Hall k Hin)).
Qed.

Lemma set_keeps_Forall {V : Type} (P : string * V -> Prop) (m : StdMap.t V) k v :
  Forall P m -> P (k, v) -> Forall P (StdMap.set m k v).
Proof.
  induction m as [| [k' v'] rest IH]; cbn; intros Hall Hp.
  - repeat constructor; exact Hp.
  - inversion Hall; subst.
    destruct (String.compare k k'); constructor; auto.
Qed.

Lemma find_Forall {V : Type} (P : string * V -> Prop) (m : StdMap.t V) k v :
  Forall P m -> StdMap.find m k = Some v -> P (k, v).
Proof.
  induction m as [| [k' v'] rest IH]; cbn; intros Hall Hf; [discriminate |].
  inversion Hall; subst.
  destruct (String.eqb k k') eqn:E.
  - apply String.eqb_eq in E. subst k'. now injection Hf as ->.
  - now apply IH.
Qed.

(** What [Portfolio::updatePosition] leaves in the map. *)
Lemma updatePosition_positions pf symbol quantity price :
  Portfolio.positions_ (Portfolio.updatePosition pf symbol quantity price)
  = StdMap.set
      (match StdMap.find (Portfolio.positions_ pf) symbol with
       | None => StdMap.set (Portfolio.positions_ pf) symbol (Position.construct symbol)
       | Some _ => Portfolio.positions_ pf
       end)
      symbol
      (Position.updatePosition
         (match StdMap.find (Portfolio.positions_ pf) symbol with
          | Some p => p
          | None => Position.construct symbol
          end) quantity price).
Proof.
  unfold Portfolio.updatePosition. cbn [Portfolio.positions_].
  destruct (StdMap.find (Portfolio.positions_ pf) symbol) as [p |] eqn:F.
  - now rewrite F.
  - now rewrite find_set_same.
Qed.

(** X1: after [updatePosition(symbol, quantity, price)] the portfolio holds,
    under [symbol], the former position of that symbol (a new, flat one when
    there was none) updated by the trade; the position of every other symbol
    and the cash are as before. *)
Theorem updatePosition_then_getPosition pf symbol quantity price :
  Portfolio.getPosition (Portfolio.updatePosition pf symbol quantity price) symbol
  = Some (Position.updatePosition
            (match Portfolio.getPosition pf symbol with
             | Some p => p
             | None => Position.construct symbol
             end) quantity price) /\
  (forall other, other <> symbol ->
     Portfolio.getPosition (Portfolio.updatePosition pf symbol quantity price) other
     = Portfolio.getPosition pf other) /\
  Portfolio.getCash (Portfolio.updatePosition pf symbol quantity price)
  = Portfolio.getCash pf.
Proof.
  unfold Portfolio.getPosition. rewrite updatePosition_positions.
  split; [apply find_set_same |]. split; [| reflexivity].
  intros other Hne. rewrite find_set_other by congruence.
  destruct (StdMap.find (Portfolio.positions_ pf) symbol); [reflexivity |].
  apply find_set_other. congruence.
Qed.

Lemma updatePosition_then_getPosition_witness :
  Portfolio.getPosition Scenario.two_positions "MSFT"
  = Portfolio.getPosition
      (Portfolio.updatePosition Portfolio.initial "MSFT" (Double.of_Z 20) (Double.of_Z 300))
      "MSFT" /\
  Portfolio.getPosition Scenario.two_positions "GOOG" = None.
Proof.
  split; [| reflexivity].
  exact (proj1 (proj2 (updatePosition_then_getPosition
                         (Portfolio.updatePosition Portfolio.initial "MSFT"
                            (Double.of_Z 20) (Double.of_Z 300))
                         "AAPL" (Double.of_Z 100) (Double.of_Z 900)))
           "MSFT" ltac:(discriminate)).
Defined.

Lemma updatePosition_symbol p quantity price :
  Position.symbol_ (Position.updatePosition p quantity price) = Position.symbol_ p.
Proof.
  unfold Position.updatePosition.
  destruct (Double.neb _ _); reflexivity.
Qed.

Lemma apply_keeps_well_keyed pf o :
  well_keyed (Portfolio.positions_ pf) ->
  well_keyed (Portfolio.positions_ (Portfolio.apply pf o)).
Proof.
  destruct o as [symbol quantity price | amount]; [| exact (fun H => H)].
  intros [Hasc Hall]. cbn [Portfolio.apply]. rewrite updatePosition_positions.
  split.
  - apply set_keeps_ascending.
    destruct (StdMap.find (Portfolio.positions_ pf) symbol);
      [exact Hasc | now apply set_keeps_ascending].
  - apply set_keeps_Forall.
    + destruct (StdMap.find (Portfolio.positions_ pf) symbol);
        [exact Hall | now apply set_keeps_Forall].
    + cbn [fst snd]. rewrite updatePosition_symbol.
      destruct (StdMap.find (Portfolio.positions_ pf) symbol) as [p |] eqn:F;
        [| reflexivity].
      exact (find_Forall _ _ _ _ Hall F).
Qed.

(** X2: however a new portfolio is traded, its symbols stay in strictly
    ascending order, so that no symbol is held twice, and the position kept
    under a symbol carries that symbol. *)
Theorem portfolio_holds_one_position_per_symbol ops :
  let positions := Portfolio.positions_ (Portfolio.run ops Portfolio.initial) in
  ascending (StdMap.keys positions) /\
  NoDup (StdMap.keys positions) /\
  (forall symbol p, Portfolio.getPosition (Portfolio.run ops Portfolio.initial) symbol = Some p ->
                    Position.symbol_ p = symbol).
Proof.
  cbv zeta.
  assert (H : well_keyed (Portfolio.positions_ (Portfolio.run ops Portfolio.initial))).
  { unfold Portfolio.run.
    assert (H0 : well_keyed (Portfolio.positions_ Portfolio.initial))
      by (split; constructor).
    revert H0. generalize Portfolio.initial.
    induction ops as [| o ops IH]; intros pf Hpf; [exact Hpf |].
    cbn [fold_left]. apply IH. now apply apply_keeps_well_keyed. }
  destruct H as [Hasc Hall].
  split; [exact Hasc |]. split; [now apply ascending_NoDup |].
  intros symbol p Hf.
  exact (find_Forall (fun entry => Position.symbol_ (snd entry) = fst entry) _ _ _ Hall Hf).
Qed.

Lemma portfolio_holds_one_position_per_symbol_witness :
  StdMap.keys (Portfolio.positions_ Scenario.two_positions) = ["AAPL"; "MSFT"] /\
  NoDup (StdMap.keys (Portfolio.positions_ Scenario.two_positions)).
Proof.
  split; [reflexivity |].
  exact (proj1 (proj2 (portfolio_holds_one_position_per_symbol
                         [Portfolio.OpUpdatePosition "MSFT" (Double.of_Z 20) (Double.of_Z 300);
                          Portfolio.OpUpdatePosition "AAPL" (Double.of_Z 100)
                            (Double.of_Z 900)]))).
Defined.

End PortfolioBookkeeping.


Section Valuation.

Lemma priced_values_none current_prices (positions : StdMap.t Position.t) :
  (forall symbol, In symbol (StdMap.keys positions) ->
                  StdMap.find current_prices symbol = None) ->
  Portfolio.priced_values current_prices positions = [].
Proof.
  induction positions as [| [symbol position] rest IH]; cbn; intros H; [reflexivity |].
  rewrite (H symbol (or_introl eq_refl)). cbn. apply IH.
  intros s Hin. apply H. now right.
Qed.

(** X3: when none of the held symbols has a price, as with the empty
    snapshot of a risk manager that never received prices, the total value
    is the cash alone, whatever is held. *)
Theorem getTotalValue_without_prices pf current_prices :
  (forall symbol, In symbol (StdMap.keys (Portfolio.positions_ pf)) ->
                  StdMap.find current_prices symbol = None) ->
  Portfolio.getTotalValue pf current_prices = Some (Portfolio.getCash pf).
Proof.
  intros H. unfold Portfolio.getTotalValue.
  rewrite getTotalValue_loop_sum, (priced_values_none _ _ H). reflexivity.
Qed.

Lemma getTotalValue_without_prices_witness :
  Portfolio.getTotalValue Scenario.after_second_fill
    (RiskManager.current_prices_ Scenario.manager)
  = Some (Double.of_Z 865000).
Proof.
  apply (getTotalValue_without_prices Scenario.after_second_fill
           (RiskManager.current_prices_ Scenario.manager)).
  intros symbol _. reflexivity.
Defined.

Lemma sub_diag_finite (x : double) :
  is_finite x = true -> Double.is_zero (x - x)%double = true.
Proof.
  destruct x as [s | s | | s m e]; cbn; try discriminate; intros _.
  - destruct s; reflexivity.
  - rewrite Z.sub_diag. reflexivity.
Qed.

Lemma mul_finite_zero (x y : double) :
  is_finite x = true -> Double.is_zero y = true -> Double.is_zero (x * y)%double = true.
Proof.
  destruct y as [sy | sy | | sy my ey]; cbn; try discriminate.
  destruct x as [sx | sx | | sx mx ex]; cbn; try discriminate; reflexivity.
Qed.

Lemma mul_zero_finite (x y : double) :
  Double.is_zero x = true -> is_finite y = true -> Double.is_zero (x * y)%double = true.
Proof.
  destruct x as [sx | sx | | sx mx ex]; cbn; try discriminate.
  destruct y as [sy | sy | | sy my ey]; cbn; try discriminate; reflexivity.
Qed.

(** X4: a position whose quantity and average price are finite shows an
    unrealized P&L of zero at its own average price, and a flat position has
    a market value of zero at every finite price. *)
Theorem position_valuation_at_rest p :
  is_finite (Position.getQuantity p) = true ->
  (is_finite (Position.getAveragePrice p) = true ->
   Double.is_zero (Position.getUnrealizedPnL p (Position.getAveragePrice p)) = true) /\
  (Double.is_zero (Position.getQuantity p) = true ->
   forall current_price, is_finite current_price = true ->
     Double.is_zero (Position.getMarketValue p current_price) = true).
Proof.
  intros Hq. split.
  - intros Ha. unfold Position.getUnrealizedPnL.
    apply mul_finite_zero; [exact Hq | now apply sub_diag_finite].
  - intros Hz current_price Hc. unfold Position.getMarketValue.
    now apply mul_zero_finite.
Qed.

Lemma position_valuation_at_rest_witness :
  Position.getUnrealizedPnL Scenario.long_10_at_100 (Double.of_Z 100) = Double.zero.
Proof.
  pose proof (proj1 (position_valuation_at_rest Scenario.long_10_at_100 eq_refl) eq_refl) as H.
  destruct (Position.getUnrealizedPnL Scenario.long_10_at_100
              (Position.getAveragePrice Scenario.long_10_at_100)) eqn:E;
    try discriminate H.
  vm_compute in E. injection E as <-.
  reflexivity.
Defined.

(** The average price is not such a rest point for an unbounded position:
    an infinite quantity turns the zero difference into a NaN. *)
Lemma unrealized_pnl_of_infinite_position :
  Position.getUnrealizedPnL
    (Position.mk "AAPL" (S754_infinity false) (Double.of_Z 100)) (Double.of_Z 100)
  = Double.nan.
Proof. reflexivity. Qed.

End Valuation.

Section OrderSetters.

Lemma setter_keeps_identity o s :
  let o' := OrderOps.apply o s in
  Order.getOrderId o' = Order.getOrderId o /\
  Order.getSymbol o' = Order.getSymbol o /\
  Order.getSide o' = Order.getSide o /\
  Order.getType o' = Order.getType o /\
  Order.getQuantity o' = Order.getQuantity o /\
  Order.create_time_ o' = Order.create_time_ o /\
  Order.update_time_ o' = Order.update_time_ o.
Proof. destruct s; repeat split. Qed.

Lemma setters_keep_identity setters : forall o,
  let o' := OrderOps.run setters o in
  Order.getOrderId o' = Order.getOrderId o /\
  Order.getSymbol o' = Order.getSymbol o /\
  Order.getSide o' = Order.getSide o /\
  Order.getType o' = Order.getType o /\
  Order.getQuantity o' = Order.getQuantity o /\
  Order.create_time_ o' = Order.create_time_ o /\
  Order.update_time_ o' = Order.update_time_ o.
Proof.
  induction setters as [| s rest IH]; intros o; [repeat split |].
  cbv zeta in *. unfold OrderOps.run in *. cbn [fold_left].
  destruct (IH (OrderOps.apply o s)) as (E1 & E2 & E3 & E4 & E5 & E6 & E7).
  destruct (setter_keeps_identity o s) as (A1 & A2 & A3 & A4 & A5 & A6 & A7).
  repeat split; congruence.
Qed.

(** X5: whatever setters are called on a constructed order, in whatever
    number, its id, symbol, side, type and requested quantity stay as
    constructed, and so do both timestamps: the last-update time is never
    advanced and remains the creation time. *)
Theorem setters_keep_identity_and_timestamps
    setters counter now symbol side type quantity o counter' :
  Order.construct counter now symbol side type quantity = Some (o, counter') ->
  let o' := OrderOps.run setters o in
  Order.getOrderId o' = "ORD" ++ Order.to_string counter' /\
  Order.getSymbol o' = symbol /\
  Order.getSide o' = side /\
  Order.getType o' = type /\
  Order.getQuantity o' = quantity /\
  Order.create_time_ o' = now /\
  Order.update_time_ o' = Order.create_time_ o'.
Proof.
  intros E. cbv zeta.
  destruct (setters_keep_identity setters o) as (E1 & E2 & E3 & E4 & E5 & E6 & E7).
  cbv zeta in *. rewrite E1, E2, E3, E4, E5, E6, E7. clear E1 E2 E3 E4 E5 E6 E7.
  unfold Order.construct, Order.generateOrderId in E.
  destruct (counter <? Order.INT_MAX)%Z; [| discriminate E].
  injection E as <- <-. repeat split.
Qed.

Lemma setters_keep_identity_and_timestamps_witness :
  let o' :=
    OrderOps.run [OrderOps.SetPrice (Double.of_Z 900); OrderOps.SetStatus PARTIALLY_FILLED;
                  OrderOps.SetFilledQuantity (Double.of_Z 40); OrderOps.SetStatus FILLED;
                  OrderOps.SetStatus PENDING]
      (Order.mk "ORD1" "AAPL" BUY MARKET (Double.of_Z 100) Double.zero Double.zero PENDING 7 7) in
  Order.getOrderId o' = "ORD1" /\ Order.getStatus o' = PENDING /\
  Order.update_time_ o' = Order.create_time_ o'.
Proof.
  cbv zeta. split; [| split; [reflexivity |]].
  - exact (proj1 (setters_keep_identity_and_timestamps _ 0 7 "AAPL" BUY MARKET
                    (Double.of_Z 100) _ _ eq_refl)).
  - exact (proj2 (proj2 (proj2 (proj2 (proj2 (proj2
             (setters_keep_identity_and_timestamps _ 0 7 "AAPL" BUY MARKET
                (Double.of_Z 100) _ _ eq_refl))))))).
Defined.

End OrderSetters.

(** ** More on the risk manager *)

Section RiskManagerCalls.

Import RiskManager.

Lemma metrics_after_refresh portfolio (metrics : StdMap.t double) name :
  StdMap.find
    (StdMap.set
       (StdMap.set
          (StdMap.set
             (StdMap.set metrics "drawdown" (Portfolio.getDrawdown portfolio))
             "leverage" (Portfolio.getLeverage portfolio))
          "daily_pnl" (Portfolio.getDailyPnL portfolio))
       "concentration" (Portfolio.getConcentration portfolio)) name
  = if String.eqb name "concentration" then Some (Portfolio.getConcentration portfolio)
    else if String.eqb name "daily_pnl" then Some (Portfolio.getDailyPnL portfolio)
    else if String.eqb name "leverage" then Some (Portfolio.getLeverage portfolio)
    else if String.eqb name "drawdown" then Some (Portfolio.getDrawdown portfolio)
    else StdMap.find metrics name.
Proof.
  repeat match goal with
         | |- context [String.eqb name ?k] =>
             destruct (String.eqb_spec name k) as [-> | ?];
             [rewrite ?find_set_other by discriminate; apply find_set_same
             | rewrite find_set_other by congruence]
         end.
  reflexivity.
Qed.

(** X6: called with the mutex free, [updateRiskMetrics] returns with the
    mutex free again, leaves the limits and the prices alone, and stores the
    four aggregates of the portfolio under their names, every other entry of
    the mapping being kept; a second refresh from the same portfolio changes
    no entry. *)
Theorem updateRiskMetrics_refreshes portfolio rm log :
  mutex_ rm = false ->
  exists rm' log',
    updateRiskMetrics portfolio rm log = Returned tt rm' log' /\
    limits_ rm' = limits_ rm /\
    current_prices_ rm' = current_prices_ rm /\
    mutex_ rm' = false /\
    (forall name,
        StdMap.find (current_metrics_ rm') name
        = if String.eqb name "concentration" then Some (Portfolio.getConcentration portfolio)
          else if String.eqb name "daily_pnl" then Some (Portfolio.getDailyPnL portfolio)
          else if String.eqb name "leverage" then Some (Portfolio.getLeverage portfolio)
          else if String.eqb name "drawdown" then Some (Portfolio.getDrawdown portfolio)
          else StdMap.find (current_metrics_ rm) name) /\
    exists rm'' log'',
      updateRiskMetrics portfolio rm' log' = Returned tt rm'' log'' /\
      forall name,
        StdMap.find (current_metrics_ rm'') name = StdMap.find (current_metrics_ rm') name.
Proof.
  intros Hm. destruct rm as [limits prices metrics locked]. cbn in Hm. subst locked.
  eexists. eexists. split; [reflexivity |].
  cbn [limits_ current_prices_ current_metrics_ mutex_ with_metrics with_mutex].
  split; [reflexivity |]. split; [reflexivity |]. split; [reflexivity |].
  split; [apply metrics_after_refresh |].
  eexists. eexists. split; [reflexivity |].
  cbn [limits_ current_prices_ current_metrics_ mutex_ with_metrics with_mutex].
  intros name. rewrite !metrics_after_refresh.
  repeat match goal with
         | |- context [String.eqb name ?k] => destruct (String.eqb name k); [reflexivity |]
         end.
  reflexivity.
Qed.

Lemma updateRiskMetrics_refreshes_witness :
  exists rm' log',
    updateRiskMetrics Portfolio.initial Scenario.manager [] = Returned tt rm' log' /\
    StdMap.find (current_metrics_ rm') "leverage" = Some (Double.of_Z 1) /\
    StdMap.find (current_metrics_ rm') "var" = None.
Proof.
  destruct (updateRiskMetrics_refreshes Portfolio.initial Scenario.manager [] eq_refl)
    as (rm' & log' & E & _ & _ & _ & Hfind & _).
  exists rm', log'. split; [exact E |].
  split; [exact (Hfind "leverage") | exact (Hfind "var")].
Defined.

(** X7: the price snapshot is replaced wholesale and the last writer wins:
    two updates in a row leave the second map only, and a check that follows
    an update sees exactly the new map. *)
Theorem updateCurrentPrices_last_writer_wins first second rm log :
  mutex_ rm = false ->
  bind (updateCurrentPrices first) (fun _ => updateCurrentPrices second) rm log
  = Returned tt (with_prices rm second) log /\
  (forall order portfolio,
      bind (updateCurrentPrices second) (fun _ => checkOrderRisk order portfolio) rm log
      = checkOrderRisk order portfolio (with_prices rm second) log) /\
  bind (updateCurrentPrices second) (fun _ => getRiskMetrics) rm log
  = Returned (current_metrics_ rm) (with_prices rm second) log.
Proof.
  intros Hm. destruct rm as [limits prices metrics locked]. cbn in Hm. subst locked.
  repeat split.
Qed.

Lemma updateCurrentPrices_last_writer_wins_witness :
  bind (updateCurrentPrices [("MSFT", Double.of_Z 310)])
       (fun _ => updateCurrentPrices Scenario.prices) Scenario.manager []
  = Returned tt (Scenario.priced Scenario.manager) [].
Proof.
  exact (proj1 (updateCurrentPrices_last_writer_wins [("MSFT", Double.of_Z 310)]
                  Scenario.prices Scenario.manager [] eq_refl)).
Defined.

(** X8: a rejection has no side effect but its warning: whenever
    [checkOrderRisk] returns, whichever of the five checks failed, it returns
    [false], the manager is exactly as before the call, and the log has
    gained one warning. *)
Theorem rejection_leaves_manager_untouched order portfolio rm log accepted rm' log' :
  checkOrderRisk order portfolio rm log = Returned accepted rm' log' ->
  accepted = false /\ rm' = rm /\ exists msg, log' = (log ++ [Warn msg])%list.
Proof.
  destruct (mutex_ rm) eqn:Hm.
  - rewrite (checkOrderRisk_locked _ _ _ _ Hm). discriminate.
  - destruct (getTotalValue_returns portfolio (current_prices_ rm)) as [pv Hv].
    rewrite (checkOrderRisk_cases order portfolio rm log pv Hm Hv). cbv zeta.
    repeat match goal with
           | |- context [if ?c then _ else _] => destruct c
           end;
      intros E; try discriminate E;
      injection E as <- <- <-; (split; [reflexivity |]); (split; [reflexivity |]);
      eexists; reflexivity.
Qed.

Lemma rejection_leaves_manager_untouched_witness :
  checkOrderRisk (Scenario.order_at "ORD3" "AAPL" 20 900) Scenario.after_second_fill
      (Scenario.priced Scenario.manager) []
  = Returned false (Scenario.priced Scenario.manager)
      [Warn "Position concentration limit exceeded for AAPL"] /\
  exists msg,
    [Warn "Position concentration limit exceeded for AAPL"] = ([] ++ [Warn msg])%list.
Proof.
  split; [reflexivity |].
  exact (proj2 (proj2 (rejection_leaves_manager_untouched
                         (Scenario.order_at "ORD3" "AAPL" 20 900) Scenario.after_second_fill
                         (Scenario.priced Scenario.manager) [] false
                         (Scenario.priced Scenario.manager)
                         [Warn "Position concentration limit exceeded for AAPL"] eq_refl))).
Defined.


Lemma add_zero_zero_or_nan (x y : double) :
  Double.is_zero x = true -> Double.zero_or_nan y = true ->
  Double.zero_or_nan (x + y)%double = true.
Proof.
  destruct x as [sx | sx | | sx mx ex]; cbn; try discriminate; intros _.
  destruct y as [sy | sy | | sy my ey]; cbn; try discriminate; intros _;
    [destruct sx, sy |]; reflexivity.
Qed.

Lemma div_by_zero_is_nan (x y : double) :
  Double.zero_or_nan x = true -> Double.is_zero y = true -> (x / y)%double = Double.nan.
Proof.
  destruct x as [sx | sx | | sx mx ex]; cbn; try discriminate; intros _;
    destruct y as [sy | sy | | sy my ey]; cbn; try discriminate; reflexivity.
Qed.

Lemma gtb_nan (limit : double) : (Double.nan >? limit)%double = false.
Proof. destruct limit; reflexivity. Qed.

(** X10: when the portfolio is worth zero and carries no exposure, an order
    whose price is unset cannot be rejected on position size, leverage or
    concentration, whatever the limits are, negative ones included: the three
    ratios are NaN.  Only the drawdown and the daily-loss checks can still
    reject it; otherwise the call goes on to the refresh. *)
Theorem worthless_portfolio_disables_ratio_checks order portfolio rm log portfolio_value :
  mutex_ rm = false ->
  Portfolio.getTotalValue portfolio (current_prices_ rm) = Some portfolio_value ->
  Double.is_zero portfolio_value = true ->
  Double.is_zero (Portfolio.getTotalExposure portfolio) = true ->
  Double.is_zero (Order.getPrice order) = true ->
  checkOrderRisk order portfolio rm log =
    if (Portfolio.getDrawdown portfolio >? max_drawdown (limits_ rm))%double then
      Returned false rm (log ++ [Warn "Drawdown limit exceeded"])
    else if (Portfolio.getDailyPnL portfolio <? - daily_loss_limit (limits_ rm))%double then
      Returned false rm (log ++ [Warn "Daily loss limit exceeded"])
    else Deadlock (with_mutex rm true) log.
Proof.
  intros Hm Hv Hz He Hp.
  rewrite (checkOrderRisk_cases order portfolio rm log portfolio_value Hm Hv). cbv zeta.
  assert (Hn : Double.zero_or_nan (Order.getQuantity order * Order.getPrice order)%double = true)
    by (apply mul_zero_r, Hp).
  rewrite (div_by_zero_is_nan _ _ Hn Hz), gtb_nan.
  rewrite (div_by_zero_is_nan _ _ (add_zero_zero_or_nan _ _ He Hn) Hz), gtb_nan.
  rewrite (div_by_zero_is_nan _ portfolio_value (mul_zero_r _ _ Hp) Hz), gtb_nan.
  reflexivity.
Qed.

Lemma worthless_portfolio_disables_ratio_checks_witness :
  checkOrderRisk (Scenario.market_order 100) Scenario.no_value
      (RiskManager.construct Scenario.negative_size_limits) []
  = Deadlock (with_mutex (RiskManager.construct Scenario.negative_size_limits) true) [].
Proof.
  exact (worthless_portfolio_disables_ratio_checks (Scenario.market_order 100)
           Scenario.no_value (RiskManager.construct Scenario.negative_size_limits) []
           Double.zero eq_refl eq_refl eq_refl eq_refl eq_refl).
Defined.

(** X11: on a portfolio worth +0 an order of positive notional is rejected
    on position size whenever that limit is finite: the ratio is +infinity. *)
Theorem positive_notional_on_worthless_portfolio order portfolio rm log :
  mutex_ rm = false ->
  Portfolio.getTotalValue portfolio (current_prices_ rm) = Some Double.zero ->
  (Double.zero <? Order.getQuantity order * Order.getPrice order)%double = true ->
  is_finite (max_position_size (limits_ rm)) = true ->
  checkOrderRisk order portfolio rm log
  = Returned false rm
      (log ++ [Warn ("Position size limit exceeded for " ++ Order.getSymbol order)]).
Proof.
  intros Hm Hv Hpos Hfin.
  rewrite (checkOrderRisk_cases order portfolio rm log Double.zero Hm Hv). cbv zeta.
  destruct (Order.getQuantity order * Order.getPrice order)%double
    as [s | s | | s m e]; try discriminate Hpos;
    destruct s; try discriminate Hpos;
    destruct (max_position_size (limits_ rm)) as [sl | sl | | sl ml el];
    try discriminate Hfin; reflexivity.
Qed.

Lemma positive_notional_on_worthless_portfolio_witness :
  checkOrderRisk (Scenario.order_at "ORD1" "AAPL" 100 900) Scenario.no_value
      Scenario.manager []
  = Returned false Scenario.manager [Warn "Position size limit exceeded for AAPL"].
Proof.
  exact (positive_notional_on_worthless_portfolio
           (Scenario.order_at "ORD1" "AAPL" 100 900) Scenario.no_value Scenario.manager []
           eq_refl eq_refl eq_refl eq_refl).
Defined.

(** The core of the next two properties, for any portfolio whose exposure is
    a zero and whose drawdown and daily P&L are within their limits. *)
Lemma unset_price_reaches_refresh order portfolio rm log :
  mutex_ rm = false ->
  Double.is_zero (Order.getPrice order) = true ->
  Double.is_zero (Portfolio.getTotalExposure portfolio) = true ->
  (max_position_size (limits_ rm) <? Double.zero)%double = false ->
  (max_leverage (limits_ rm) <? Double.zero)%double = false ->
  (Portfolio.getDrawdown portfolio >? max_drawdown (limits_ rm))%double = false ->
  (Portfolio.getDailyPnL portfolio <? - daily_loss_limit (limits_ rm))%double = false ->
  (position_concentration (limits_ rm) <? Double.zero)%double = false ->
  checkOrderRisk order portfolio rm log = Deadlock (with_mutex rm true) log.
Proof.
  intros Hm Hp He L1 L2 L3 L4 L5.
  destruct (getTotalValue_returns portfolio (current_prices_ rm)) as [pv Hv].
  rewrite (checkOrderRisk_cases order _ rm log pv Hm Hv). cbv zeta.
  assert (Hn : Double.zero_or_nan (Order.getQuantity order * Order.getPrice order)%double = true)
    by (apply mul_zero_r, Hp).
  rewrite (gtb_zero_or_nan _ _ (div_zero_or_nan _ pv Hn) L1).
  rewrite (gtb_zero_or_nan _ _ (div_zero_or_nan _ pv (add_zero_zero_or_nan _ _ He Hn)) L2).
  rewrite L3, L4.
  rewrite (gtb_zero_or_nan _ _ (unset_price_concentration order _ pv Hp) L5).
  reflexivity.
Qed.

(** X12: an order whose price is unset, checked against a portfolio that
    was only ever traded through updatePosition and updateCash, passes all
    five checks as soon as no limit is negative, whatever its quantity and
    whatever the portfolio is worth; the call then stops at the lock of the
    refresh. *)
Theorem unset_price_order_passes_every_check order ops rm log :
  mutex_ rm = false ->
  Double.is_zero (Order.getPrice order) = true ->
  (max_position_size (limits_ rm) <? Double.zero)%double = false ->
  (max_leverage (limits_ rm) <? Double.zero)%double = false ->
  (max_drawdown (limits_ rm) <? Double.zero)%double = false ->
  (Double.zero <? - daily_loss_limit (limits_ rm))%double = false ->
  (position_concentration (limits_ rm) <? Double.zero)%double = false ->
  checkOrderRisk order (Portfolio.run ops Portfolio.initial) rm log
  = Deadlock (with_mutex rm true) log.
Proof.
  intros Hm Hp L1 L2 L3 L4 L5.
  destruct (run_keeps_aggregates ops Portfolio.initial) as (E1 & E2 & _ & E4 & _).
  apply unset_price_reaches_refresh; try assumption.
  - now rewrite E1.
  - rewrite E2. exact L3.
  - rewrite E4. exact L4.
Qed.

Lemma unset_price_order_passes_every_check_witness :
  checkOrderRisk (Scenario.market_order 100) Scenario.two_positions Scenario.manager []
  = Deadlock (with_mutex Scenario.manager true) [].
Proof.
  exact (unset_price_order_passes_every_check (Scenario.market_order 100)
           [Portfolio.OpUpdatePosition "MSFT" (Double.of_Z 20) (Double.of_Z 300);
            Portfolio.OpUpdatePosition "AAPL" (Double.of_Z 100) (Double.of_Z 900)]
           Scenario.manager [] eq_refl eq_refl eq_refl eq_refl eq_refl eq_refl eq_refl).
Defined.

End RiskManagerCalls.


(** ** The signal phase of the control loop *)

Section SignalPhase.

Variable Loader : Type.
Variable loadMarketData : Loader -> string -> option MarketData * Loader.
Variable symbols : list string.
Variable position_size_limit : double.
Variable clock : Z -> Timestamp.

Local Abbreviation state := (ControlLoop.t Loader).
Local Abbreviation processSignals_loop :=
  (ControlLoop.processSignals_loop Loader loadMarketData symbols position_size_limit clock).
Local Abbreviation processSignals :=
  (ControlLoop.processSignals Loader loadMarketData symbols position_size_limit clock).
Local Abbreviation getCurrentPrices :=
  (ControlLoop.getCurrentPrices Loader loadMarketData symbols).

(** What the core may have changed in the engine, where the phase left a
    state: nothing was handed to the executor, the portfolio and the limits
    are as before. *)
Local Abbreviation untouched e e' :=
  (ControlLoop.submitted_ Loader e' = ControlLoop.submitted_ Loader e /\
   ControlLoop.portfolio_ Loader e' = ControlLoop.portfolio_ Loader e /\
   RiskManager.limits_ (ControlLoop.risk_manager_ Loader e')
   = RiskManager.limits_ (ControlLoop.risk_manager_ Loader e)).

Lemma checkOrderRisk_keeps_limits order portfolio rm log :
  match RiskManager.checkOrderRisk order portfolio rm log with
  | RiskManager.Returned accepted rm' _ =>
      accepted = false /\ RiskManager.limits_ rm' = RiskManager.limits_ rm
  | RiskManager.Threw _ rm' _ => RiskManager.limits_ rm' = RiskManager.limits_ rm
  | RiskManager.Deadlock rm' _ => RiskManager.limits_ rm' = RiskManager.limits_ rm
  end.
Proof.
  destruct (RiskManager.mutex_ rm) eqn:Hm.
  - now rewrite (checkOrderRisk_locked _ _ _ _ Hm).
  - destruct (getTotalValue_returns portfolio (RiskManager.current_prices_ rm)) as [pv Hv].
    rewrite (checkOrderRisk_cases order portfolio rm log pv Hm Hv). cbv zeta.
    repeat match goal with
           | |- context [if ?c then _ else _] => destruct c
           end; try (split; reflexivity); reflexivity.
Qed.

Lemma createOrder_fails_on_overflow counter now portfolio prices signal :
  TradingEngine.createOrder counter now portfolio prices position_size_limit signal = None ->
  (Order.INT_MAX <= counter)%Z.
Proof.
  unfold TradingEngine.createOrder, TradingEngine.calculateOrderSize.
  destruct (getTotalValue_returns portfolio prices) as [pv ->].
  unfold Order.construct, Order.generateOrderId.
  destruct (Z.ltb_spec counter Order.INT_MAX); [discriminate | trivial].
Qed.

Lemma createOrder_counter counter now portfolio prices signal order counter' :
  TradingEngine.createOrder counter now portfolio prices position_size_limit signal
  = Some (order, counter') ->
  counter' = (counter + 1)%Z /\ Order.getPrice order = Double.zero /\
  Order.getType order = MARKET.
Proof.
  unfold TradingEngine.createOrder, TradingEngine.calculateOrderSize.
  destruct (getTotalValue_returns portfolio prices) as [pv ->].
  unfold Order.construct, Order.generateOrderId.
  destruct (counter <? Order.INT_MAX)%Z; [| discriminate].
  intros [= <- <-]. repeat split.
Qed.

Lemma processSignals_loop_untouched signals : forall e : state,
  match processSignals_loop signals e with
  | ControlLoop.Finished _ e' | ControlLoop.Raised _ _ e' | ControlLoop.Stuck _ e' =>
      untouched e e'
  | ControlLoop.Undefined _ =>
      (Order.INT_MAX <= ControlLoop.counter_ Loader e + Z.of_nat (List.length signals))%Z
  end.
Proof.
  induction signals as [| signal rest IH]; intros e; cbn [ControlLoop.processSignals_loop].
  - repeat split.
  - destruct (ControlLoop.getCurrentPrices Loader loadMarketData symbols
                (ControlLoop.data_loader_ Loader e)) as [[prices |] loader'];
      [| repeat split].
    destruct (TradingEngine.createOrder _ _ _ prices position_size_limit signal)
      as [[order counter'] |] eqn:Hc.
    + apply createOrder_counter in Hc as (-> & _ & _).
      pose proof (checkOrderRisk_keeps_limits order (ControlLoop.portfolio_ Loader e)
                    (ControlLoop.risk_manager_ Loader e) (ControlLoop.log_ Loader e)) as Hk.
      destruct (RiskManager.checkOrderRisk order _ _ _) as [accepted rm' log' | what rm' log' | rm' log'].
      * destruct Hk as [-> Hl].
        match goal with |- context [ControlLoop.processSignals_loop _ _ _ _ _ rest ?e1] =>
          specialize (IH e1) end.
        destruct (ControlLoop.processSignals_loop _ _ _ _ _ rest _) as [e' | what e' | e' |];
          cbn in IH |- *;
          try (destruct IH as (I1 & I2 & I3); repeat split; congruence).
        cbn [List.length]. lia.
      * repeat split. exact Hk.
      * repeat split. exact Hk.
    + apply createOrder_fails_on_overflow in Hc. cbn [List.length]. lia.
Qed.

(** X13: the signal phase never hands an order to the executor.  Whether it
    finishes or stops for ever, the orders submitted so far, the portfolio
    and the limits are what they were; the phase is undefined only when the
    int counter of the order ids runs over. *)
Theorem processSignals_never_submits pending (e : state) :
  match processSignals pending e with
  | ControlLoop.Finished _ e' | ControlLoop.Raised _ _ e' | ControlLoop.Stuck _ e' =>
      ControlLoop.submitted_ Loader e' = ControlLoop.submitted_ Loader e /\
      ControlLoop.portfolio_ Loader e' = ControlLoop.portfolio_ Loader e /\
      RiskManager.limits_ (ControlLoop.risk_manager_ Loader e')
      = RiskManager.limits_ (ControlLoop.risk_manager_ Loader e)
  | ControlLoop.Undefined _ =>
      exists signals,
        pending = Some signals /\
        (Order.INT_MAX <= ControlLoop.counter_ Loader e + Z.of_nat (List.length signals))%Z
  end.
Proof.
  unfold ControlLoop.processSignals.
  destruct pending as [signals |]; [| repeat split].
  pose proof (processSignals_loop_untouched signals e) as H.
  destruct (ControlLoop.processSignals_loop _ _ _ _ _ signals e) as [e' | what e' | e' |];
    cbn in H |- *; try exact H.
  exists signals. split; [reflexivity | exact H].
Qed.

(** X14: with no negative limit, the first signal of a batch stops the
    engine.  Once the prices were loaded and the market order constructed,
    [checkOrderRisk] passes the order through the five checks and never
    returns: the phase is stuck with one order id consumed, nothing
    submitted, and the mutex of the risk manager owned for good. *)
Theorem first_signal_stops_the_engine signal rest ops prices loader' (e : state) :
  ControlLoop.portfolio_ Loader e = Portfolio.run ops Portfolio.initial ->
  RiskManager.mutex_ (ControlLoop.risk_manager_ Loader e) = false ->
  (ControlLoop.counter_ Loader e < Order.INT_MAX)%Z ->
  getCurrentPrices (ControlLoop.data_loader_ Loader e) = (Some prices, loader') ->
  let limits := RiskManager.limits_ (ControlLoop.risk_manager_ Loader e) in
  (max_position_size limits <? Double.zero)%double = false ->
  (max_leverage limits <? Double.zero)%double = false ->
  (max_drawdown limits <? Double.zero)%double = false ->
  (Double.zero <? - daily_loss_limit limits)%double = false ->
  (position_concentration limits <? Double.zero)%double = false ->
  processSignals (Some (signal :: rest)) e
  = ControlLoop.Stuck Loader
      (ControlLoop.mk Loader (ControlLoop.portfolio_ Loader e)
         (RiskManager.with_mutex (ControlLoop.risk_manager_ Loader e) true)
         loader' (ControlLoop.counter_ Loader e + 1)
         (ControlLoop.submitted_ Loader e) (ControlLoop.log_ Loader e)).
Proof.
  intros Hpf Hm Hc Hprices limits L1 L2 L3 L4 L5. subst limits.
  unfold ControlLoop.processSignals. cbn [ControlLoop.processSignals_loop].
  rewrite Hprices.
  destruct (TradingEngine.createOrder _ _ _ prices position_size_limit signal)
    as [[order counter'] |] eqn:Hcreate.
  - apply createOrder_counter in Hcreate as (-> & Hprice & _).
    rewrite (unset_price_reaches_refresh order (ControlLoop.portfolio_ Loader e)
               (ControlLoop.risk_manager_ Loader e) (ControlLoop.log_ Loader e));
      try assumption; try reflexivity.
    + now rewrite Hprice.
    + rewrite Hpf.
      destruct (run_keeps_aggregates ops Portfolio.initial) as (E1 & _). now rewrite E1.
    + rewrite Hpf.
      destruct (run_keeps_aggregates ops Portfolio.initial) as (_ & E2 & _).
      rewrite E2. exact L3.
    + rewrite Hpf.
      destruct (run_keeps_aggregates ops Portfolio.initial) as (_ & _ & _ & E4 & _).
      rewrite E4. exact L4.
  - apply createOrder_fails_on_overflow in Hcreate. lia.
Qed.

Lemma getCurrentPrices_loop_keys todo : forall acc loader prices loader',
  ControlLoop.getCurrentPrices_loop Loader loadMarketData todo acc loader
  = (Some prices, loader') ->
  forall symbol,
    StdMap.find prices symbol <> None <-> In symbol todo \/ StdMap.find acc symbol <> None.
Proof.
  induction todo as [| s rest IH]; intros acc loader prices loader';
    cbn [ControlLoop.getCurrentPrices_loop].
  - intros [= <- <-] symbol. cbn. tauto.
  - destruct (loadMarketData loader s) as [[market_data |] loader1]; [| discriminate].
    intros H symbol. rewrite (IH _ _ _ _ H symbol). cbn [In].
    destruct (String.eqb_spec s symbol) as [-> | Hne].
    + rewrite find_set_same. split; [intros _; left; now left | intros _; right; discriminate].
    + rewrite find_set_other by exact Hne. tauto.
Qed.

(** X15: when [getCurrentPrices] returns, the map quotes the configured
    symbols and nothing else; a single load that throws makes the whole call
    throw. *)
Theorem getCurrentPrices_quotes_configured_symbols loader :
  match getCurrentPrices loader with
  | (Some prices, _) => forall symbol, StdMap.find prices symbol <> None <-> In symbol symbols
  | (None, _) =>
      exists symbol loader0 loader1,
        In symbol symbols /\ loadMarketData loader0 symbol = (None, loader1)
  end.
Proof.
  unfold ControlLoop.getCurrentPrices.
  destruct (ControlLoop.getCurrentPrices_loop Loader loadMarketData symbols StdMap.empty loader)
    as [[prices |] loader'] eqn:E.
  - intros symbol. rewrite (getCurrentPrices_loop_keys _ _ _ _ _ E symbol). cbn.
    split; [intros [H | H]; [exact H | congruence] | now left].
  - revert E. generalize (@StdMap.empty double). revert loader.
    induction symbols as [| s rest IH]; intros loader acc;
      cbn [ControlLoop.getCurrentPrices_loop]; [discriminate |].
    destruct (loadMarketData loader s) as [[market_data |] loader1] eqn:L.
    + intros E. destruct (IH _ _ E) as (symbol & l0 & l1 & Hin & Hl).
      exists symbol, l0, l1. split; [now right | exact Hl].
    + intros _. exists s, loader, loader1. split; [now left | exact L].
Qed.

End SignalPhase.

(** The engine of the example never gets past its first signal. *)
Lemma first_signal_stops_the_engine_witness :
  EngineScenario.processSignals (Some [EngineScenario.buy; EngineScenario.sell])
    EngineScenario.engine
  = ControlLoop.Stuck unit
      (ControlLoop.mk unit Portfolio.initial
         (RiskManager.with_mutex Scenario.manager true) tt 1 [] []).
Proof.
  exact (first_signal_stops_the_engine unit EngineScenario.loadMarketData
           EngineScenario.symbols EngineScenario.position_size_limit EngineScenario.clock
           EngineScenario.buy [EngineScenario.sell]
           [] [("AAPL", Double.of_Z 900)] tt EngineScenario.engine
           eq_refl eq_refl eq_refl eq_refl eq_refl eq_refl eq_refl eq_refl eq_refl).
Defined.

(** A strategy whose [getSignals] throws: the phase logs the error and
    finishes, with nothing submitted. *)
Lemma processSignals_never_submits_witness :
  EngineScenario.processSignals None EngineScenario.engine
  = ControlLoop.Finished unit
      (ControlLoop.mk unit Portfolio.initial Scenario.manager tt 0 []
         [Error "Error processing signals: getSignals"]) /\
  ControlLoop.submitted_ unit
    (ControlLoop.mk unit Portfolio.initial Scenario.manager tt 0 []
       [Error "Error processing signals: getSignals"])
  = ControlLoop.submitted_ unit EngineScenario.engine.
Proof.
  split; [reflexivity |].
  exact (proj1 (processSignals_never_submits unit EngineScenario.loadMarketData
                  EngineScenario.symbols EngineScenario.position_size_limit
                  EngineScenario.clock None EngineScenario.engine)).
Defined.

Lemma getCurrentPrices_quotes_configured_symbols_witness :
  StdMap.find [("AAPL", Double.of_Z 900)] "AAPL" <> None <-> In "AAPL" EngineScenario.symbols.
Proof.
  exact (getCurrentPrices_quotes_configured_symbols unit EngineScenario.loadMarketData
           EngineScenario.symbols tt "AAPL").
Defined.
